(** * Block Blast mini-app: the view layer of [frontend/src/App.js]

    A shallow embedding of the React components of [App.js] and of the
    fragment of JavaScript they rely on (dynamic values, truthiness,
    property access that throws on [null]/[undefined], [try]/[catch]/
    [finally], [axios] calls against an arbitrary backend), followed by the
    properties of the bootstrap sequence, the tab router, the game panel,
    the fetching panels and the rank overlay. *)

From Stdlib Require Import ZArith List String Ascii Bool Lia DecimalString.
Import ListNotations.
Local Open Scope string_scope.
Local Open Scope Z_scope.
Set Warnings "-register-all".

(* ===================================================================== *)
(** ** JavaScript values *)
(* ===================================================================== *)

Module JS.

(** The values that travel through the components: JSON data from the
    backend, the host's identity object and React state.  Numbers are the
    integers (scores, ranks, ids and timestamps are integral). *)
Inductive value : Type :=
| VUndefined
| VNull
| VBool (b : bool)
| VNum (n : Z)
| VStr (s : string)
| VArr (items : list value)
| VObj (fields : list (string * value)).

(** [!!v] *)
Definition truthy (v : value) : bool :=
  match v with
  | VUndefined | VNull => false
  | VBool b => b
  | VNum n => negb (n =? 0)
  | VStr s => negb (s =? "")%string
  | VArr _ | VObj _ => true
  end.

(** [a || b] on values that are already evaluated. *)
Definition or_else (a b : value) : value := if truthy a then a else b.

Fixpoint assoc (k : string) (fields : list (string * value)) : value :=
  match fields with
  | [] => VUndefined
  | (k', v) :: rest => if (k' =? k)%string then v else assoc k rest
  end.

(** Decimal rendering of an integer, as [String(n)] gives it below 10^21
    in absolute value (from there on JavaScript prints an exponent).
    Numbers that are not integers are not modelled. *)
Definition string_of_Z (n : Z) : string := NilZero.string_of_int (Z.to_int n).

(** [String(v)], the conversion a template literal applies to [${v}]. *)
Fixpoint to_string (v : value) : string :=
  match v with
  | VUndefined => "undefined"
  | VNull => "null"
  | VBool true => "true"
  | VBool false => "false"
  | VNum n => string_of_Z n
  | VStr s => s
  | VArr items =>
      (fix join (l : list value) : string :=
         match l with
         | [] => ""
         | [x] => match x with VUndefined | VNull => "" | _ => to_string x end
         | x :: rest =>
             (match x with VUndefined | VNull => "" | _ => to_string x end)
               ++ "," ++ join rest
         end) items
  | VObj _ => "[object Object]"
  end.

(** [v === 0] *)
Definition is_zero (v : value) : bool :=
  match v with VNum 0 => true | _ => false end.

Inductive exn : Type :=
| TypeError (reading : string)      (* property read on null/undefined *)
| AxiosError (url : string)         (* the request was rejected *)
| HostError (method : string).      (* a host method threw *)

Inductive res (A : Type) : Type :=
| Ret (a : A)
| Throw (e : exn).
Arguments Ret {A} a.
Arguments Throw {A} e.

(** [v.k]: a [TypeError] on [null] and [undefined], the field of an object,
    [undefined] on a missing field and on primitives and arrays (only data
    fields are ever read from them here). *)
Definition get_prop (v : value) (k : string) : res value :=
  match v with
  | VUndefined | VNull => Throw (TypeError k)
  | VObj fields => Ret (assoc k fields)
  | _ => Ret VUndefined
  end.

(** [v?.k] *)
Definition get_opt (v : value) (k : string) : value :=
  match get_prop v k with Ret x => x | Throw _ => VUndefined end.

End JS.
Import JS.

(* ===================================================================== *)
(** ** The outside world: backend, console, clock, randomness, timers *)
(* ===================================================================== *)

Inductive Request : Type :=
| POST (url : string) (body : value) (headers : list (string * value))
| GET (url : string).

(** What a request settles to; [Resolve d] carries [response.data].  A
    request that never settles has no outcome: runs that wait on one are
    the subject of [Async] below, and every statement about an [Env] is
    about requests that settle. *)
Inductive Outcome : Type :=
| Resolve (data : value)
| Reject.

Inductive LogLevel : Type := LLog | LWarn | LError.

(** The environment is arbitrary: the backend answers each request as it
    likes, depending on everything it was sent before. *)
Record Env : Type := mkEnv {
  BACKEND_URL : value;                              (* process.env.REACT_APP_BACKEND_URL *)
  network : list Request -> Request -> Outcome;     (* earlier requests, this request *)
  random_stream : nat -> Z                          (* source of Math.random() *)
}.

Record World : Type := mkWorld {
  requests : list Request;            (* requests issued so far, oldest first *)
  console : list (LogLevel * string); (* console output, oldest first *)
  draws : nat;                        (* calls of Math.random() so far *)
  clock : Z;                          (* Date.now() *)
  timeouts : list Z                   (* delays of the setTimeout calls made *)
}.

Definition world0 (now : Z) : World :=
  {| requests := []; console := []; draws := 0%nat; clock := now; timeouts := [] |}.

(** Computations of a component with local state [S]. *)
Definition M (S A : Type) : Type := S -> World -> res A * S * World.

Definition ret {S A} (a : A) : M S A := fun s w => (Ret a, s, w).

Definition bind {S A B} (c : M S A) (k : A -> M S B) : M S B :=
  fun s w =>
    match c s w with
    | (Ret a, s', w') => k a s' w'
    | (Throw e, s', w') => (Throw e, s', w')
    end.

Definition lift {S A} (r : res A) : M S A := fun s w => (r, s, w).

(** [try { c } catch (error) { h }] *)
Definition try_catch {S A} (c : M S A) (h : exn -> M S A) : M S A :=
  fun s w =>
    match c s w with
    | (Ret a, s', w') => (Ret a, s', w')
    | (Throw e, s', w') => h e s' w'
    end.

(** [try { c } finally { f }] *)
Definition try_finally {S A} (c : M S A) (f : M S unit) : M S A :=
  fun s w =>
    match c s w with
    | (r, s', w') =>
        match f s' w' with
        | (Ret _, s'', w'') => (r, s'', w'')
        | (Throw e, s'', w'') => (Throw e, s'', w'')
        end
    end.

Declare Scope js_scope.
Delimit Scope js_scope with js.
Notation "x <- c ;; k" := (bind c (fun x => k))
  (at level 61, c at next level, right associativity) : js_scope.
Notation "c ;; k" := (bind c (fun _ => k))
  (at level 61, right associativity) : js_scope.
Local Open Scope js_scope.

Definition modify {S} (f : S -> S) : M S unit := fun s w => (Ret tt, f s, w).

Definition console_out {S} (l : LogLevel) (msg : string) : M S unit :=
  fun s w =>
    (Ret tt, s,
     {| requests := requests w; console := console w ++ [(l, msg)];
        draws := draws w; clock := clock w; timeouts := timeouts w |}).

(** [const API = `${BACKEND_URL}/api`] *)
Definition API (env : Env) : string := to_string (BACKEND_URL env) ++ "/api".

(** An [axios] call: the request is recorded, the backend decides. *)
Definition axios {S} (env : Env) (r : Request) : M S value :=
  fun s w =>
    let w' := {| requests := requests w ++ [r]; console := console w;
                 draws := draws w; clock := clock w; timeouts := timeouts w |} in
    match network env (requests w) r with
    | Resolve d => (Ret d, s, w')
    | Reject =>
        (Throw (AxiosError match r with POST u _ _ => u | GET u => u end), s, w')
    end.

(** [Math.floor(Math.random() * n)]: some integer of [0, n). *)
Definition random_below {S} (env : Env) (n : Z) : M S Z :=
  fun s w =>
    (Ret (random_stream env (draws w) mod n), s,
     {| requests := requests w; console := console w;
        draws := Datatypes.S (draws w); clock := clock w; timeouts := timeouts w |}).

Definition Date_now {S} : M S Z := fun s w => (Ret (clock w), s, w).

(** [setTimeout(callback, delay)]: the call returns at once. *)
Definition setTimeout {S} (delay : Z) : M S unit :=
  fun s w =>
    (Ret tt, s,
     {| requests := requests w; console := console w;
        draws := draws w; clock := clock w; timeouts := timeouts w ++ [delay] |}).

(* ===================================================================== *)
(** ** [BlockBlastGame]: the game panel *)
(* ===================================================================== *)

Module GamePanel.

Record State : Type := mkState {
  score : Z;
  gameOver : bool;
  isPlaying : bool;
  gameStartTime : option Z          (* null, or the Date.now() of the start *)
}.

Definition initial : State :=
  {| score := 0; gameOver := false; isPlaying := false; gameStartTime := None |}.

Definition setScore (n : Z) : M State unit :=
  modify (fun s => {| score := n; gameOver := gameOver s;
                      isPlaying := isPlaying s; gameStartTime := gameStartTime s |}).
Definition setGameOver (b : bool) : M State unit :=
  modify (fun s => {| score := score s; gameOver := b;
                      isPlaying := isPlaying s; gameStartTime := gameStartTime s |}).
Definition setIsPlaying (b : bool) : M State unit :=
  modify (fun s => {| score := score s; gameOver := gameOver s;
                      isPlaying := b; gameStartTime := gameStartTime s |}).
Definition setGameStartTime (t : option Z) : M State unit :=
  modify (fun s => {| score := score s; gameOver := gameOver s;
                      isPlaying := isPlaying s; gameStartTime := t |}).

Definition startGame : M State unit :=
  setIsPlaying true ;;
  setGameOver false ;;
  setScore 0 ;;
  now <- Date_now ;;
  setGameStartTime (Some now).

(** [gameStartTime ? Math.floor((Date.now() - gameStartTime) / 1000) : 0];
    a start time of 0 is falsy like [null]. *)
Definition gameDuration (start : option Z) (now : Z) : Z :=
  match start with
  | Some t => if t =? 0 then 0 else (now - t) / 1000
  | None => 0
  end.

Definition score_body (user_id : value) (finalScore duration : Z) : value :=
  VObj [("user_id", user_id); ("score", VNum finalScore);
        ("game_duration", VNum duration)].

(** [simulateGameOver], with the [user] prop and the [gameStartTime] of the
    render that created the closure. *)
Definition simulateGameOver (env : Env) (user : value) (start : option Z)
  : M State unit :=
  setGameOver true ;;
  setIsPlaying false ;;
  r <- random_below env 10000 ;;
  let finalScore := r + 1000 in
  setScore finalScore ;;
  now <- Date_now ;;
  let duration := gameDuration start now in
  if truthy user && truthy (get_opt user "id") then
    try_catch
      (axios env (POST (API env ++ "/scores")
                    (score_body (get_opt user "id") finalScore duration) []) ;;
       console_out LLog "Score submitted successfully")
      (fun error => console_out LError "Failed to submit score:")
  else ret tt.

(** The three phases of a session. *)
Inductive Phase : Type := Idle | Playing | Over.

Definition phase (s : State) : Phase :=
  if gameOver s then Over else if isPlaying s then Playing else Idle.

(** *** What the panel renders *)

Inductive Handler : Type := HstartGame | HsimulateGameOver.

Record Button : Type := mkButton { className : string; onClick : Handler }.

(** A block of the game area with the buttons inside it. *)
Record Block : Type := mkBlock { block : string; buttons : list Button }.

(** The current revision: the game runs in an iframe, the playing block has
    no button. *)
Definition render (s : State) : list Block :=
  (if negb (isPlaying s) && negb (gameOver s)
   then [mkBlock "game-start" [mkButton "start-button" HstartGame]] else [])
  ++ (if isPlaying s then [mkBlock "game-playing" []] else [])
  ++ (if gameOver s
      then [mkBlock "game-over" [mkButton "restart-button" HstartGame]] else []).

(** The demo revision: a grid and a button that ends the session. *)
Definition render_demo (s : State) : list Block :=
  (if negb (isPlaying s) && negb (gameOver s)
   then [mkBlock "game-start" [mkButton "start-button" HstartGame]] else [])
  ++ (if isPlaying s
      then [mkBlock "game-playing" [mkButton "end-game-button" HsimulateGameOver]]
      else [])
  ++ (if gameOver s
      then [mkBlock "game-over" [mkButton "restart-button" HstartGame]] else []).

Definition rendered_buttons (view : list Block) : list Button :=
  flat_map buttons view.

Definition handle (env : Env) (user : value) (h : Handler) : M State unit :=
  match h with
  | HstartGame => startGame
  | HsimulateGameOver => fun s w => simulateGameOver env user (gameStartTime s) s w
  end.

(** A click on the button of class [cls]: it reaches a handler only if the
    button is on screen. *)
Definition click (view : State -> list Block) (env : Env) (user : value)
  (cls : string) : M State unit :=
  fun s w =>
    match find (fun b => (className b =? cls)%string) (rendered_buttons (view s)) with
    | Some b => handle env user (onClick b) s w
    | None => (Ret tt, s, w)
    end.

(** *** The poll of the demo revision and its effect life cycle *)

Fixpoint includes (text pat : string) : bool :=
  if prefix pat text then true
  else match text with
       | EmptyString => false
       | String _ rest => includes rest pat
       end.

(** What an interval callback captured when its effect ran. *)
Record Closure : Type := mkClosure {
  c_isPlaying : bool;
  c_gameStartTime : option Z;
  c_user : value
}.

(** A mounted panel: its props and state, the dependency values of the last
    effect run and the interval that effect's cleanup will clear. *)
Record Mounted : Type := mkMounted {
  props_user : value;
  state : State;
  effect_deps : bool * option Z;
  effect_interval : nat
}.

Record Page : Type := mkPage {
  panel : option Mounted;
  intervals : list (nat * Closure);   (* the active setInterval timers *)
  next_interval : nat;                (* the id the next setInterval returns *)
  inspections : nat;                  (* reads of document.body.textContent *)
  world : World
}.

Definition page0 (now : Z) : Page :=
  {| panel := None; intervals := []; next_interval := 1%nat;
     inspections := 0%nat; world := world0 now |}.

Definition deps_of (s : State) : bool * option Z := (isPlaying s, gameStartTime s).

Definition deps_eqb (a b : bool * option Z) : bool :=
  Bool.eqb (fst a) (fst b)
  && match snd a, snd b with
     | Some x, Some y => x =? y
     | None, None => true
     | _, _ => false
     end.

Definition clearInterval (id : nat) (l : list (nat * Closure)) : list (nat * Closure) :=
  filter (fun t => negb (Nat.eqb (fst t) id)) l.

(** The effect body: [setInterval(callback, 500)] whatever the phase. *)
Definition run_effect (user : value) (s : State) (pg : Page) : Page :=
  {| panel := Some {| props_user := user; state := s; effect_deps := deps_of s;
                      effect_interval := next_interval pg |};
     intervals := intervals pg
                  ++ [(next_interval pg,
                       {| c_isPlaying := isPlaying s;
                          c_gameStartTime := gameStartTime s; c_user := user |})];
     next_interval := Datatypes.S (next_interval pg);
     inspections := inspections pg;
     world := world pg |}.

(** A render commit of the mounted panel [m] with the new state [s]: when
    [isPlaying] or [gameStartTime] changed, the cleanup of the previous
    effect runs and then the effect again. *)
Definition commit (m : Mounted) (s : State) (w : World) (pg : Page) : Page :=
  if deps_eqb (effect_deps m) (deps_of s) then
    {| panel := Some {| props_user := props_user m; state := s;
                        effect_deps := effect_deps m;
                        effect_interval := effect_interval m |};
       intervals := intervals pg; next_interval := next_interval pg;
       inspections := inspections pg; world := w |}
  else
    run_effect (props_user m) s
      {| panel := panel pg;
         intervals := clearInterval (effect_interval m) (intervals pg);
         next_interval := next_interval pg;
         inspections := inspections pg; world := w |}.

Inductive Event : Type :=
| EMount (user : value)
| EUnmount
| EProps (user : value)                 (* the parent passes a new [user] *)
| EClick (cls : string)
| ETick (id : nat) (bodyText : string) (screenScore : Z)
| EElapse (ms : Z).

Fixpoint lookup_interval (id : nat) (l : list (nat * Closure)) : option Closure :=
  match l with
  | [] => None
  | (i, c) :: rest => if Nat.eqb i id then Some c else lookup_interval id rest
  end.

(** The interval callback, run with what it captured. *)
Definition callback (env : Env) (c : Closure) (bodyText : string) (screenScore : Z)
  : M State unit :=
  if c_isPlaying c then
    if includes bodyText "No Space Left" then
      setScore screenScore ;;
      simulateGameOver env (c_user c) (c_gameStartTime c)
    else ret tt
  else ret tt.

Definition step (env : Env) (e : Event) (pg : Page) : Page :=
  match e, panel pg with
  | EMount user, None => run_effect user initial pg
  | EMount _, Some _ => pg
  | EUnmount, Some m =>
      {| panel := None;
         intervals := clearInterval (effect_interval m) (intervals pg);
         next_interval := next_interval pg;
         inspections := inspections pg; world := world pg |}
  | EUnmount, None => pg
  | EProps user, Some m =>
      {| panel := Some {| props_user := user; state := state m;
                          effect_deps := effect_deps m;
                          effect_interval := effect_interval m |};
         intervals := intervals pg; next_interval := next_interval pg;
         inspections := inspections pg; world := world pg |}
  | EProps _, None => pg
  | EClick cls, Some m =>
      match click render_demo env (props_user m) cls (state m) (world pg) with
      | (_, s, w) => commit m s w pg
      end
  | EClick _, None => pg
  | ETick id bodyText screenScore, _ =>
      match lookup_interval id (intervals pg) with
      | None => pg
      | Some c =>
          let pg' :=
            {| panel := panel pg; intervals := intervals pg;
               next_interval := next_interval pg;
               inspections := if c_isPlaying c then Datatypes.S (inspections pg)
                              else inspections pg;
               world := world pg |} in
          match panel pg with
          | Some m =>
              match callback env c bodyText screenScore (state m) (world pg) with
              | (_, s, w) => commit m s w pg'
              end
          | None =>
              (* state setters of an unmounted component do nothing *)
              match callback env c bodyText screenScore initial (world pg) with
              | (_, _, w) =>
                  {| panel := None; intervals := intervals pg';
                     next_interval := next_interval pg';
                     inspections := inspections pg'; world := w |}
              end
          end
      end
  | EElapse ms, _ =>
      {| panel := panel pg; intervals := intervals pg;
         next_interval := next_interval pg; inspections := inspections pg;
         world := {| requests := requests (world pg); console := console (world pg);
                     draws := draws (world pg);
                     clock := clock (world pg) + Z.max 0 ms;
                     timeouts := timeouts (world pg) |} |}
  end.

Definition run (env : Env) (events : list Event) (pg : Page) : Page :=
  fold_left (fun p e => step env e p) events pg.

Definition playing (pg : Page) : bool :=
  match panel pg with
  | Some m => isPlaying (state m)
  | None => false
  end.

Definition active (id : nat) (pg : Page) : bool :=
  existsb (fun t => Nat.eqb (fst t) id) (intervals pg).

End GamePanel.

(* ===================================================================== *)
(** ** [LeadersTab]: the leaderboard panel *)
(* ===================================================================== *)

Module LeaderboardPanel.

Record State : Type := mkState { leaders : value; loading : bool }.

Definition initial : State := {| leaders := VArr []; loading := true |}.

Definition setLeaders (v : value) : M State unit :=
  modify (fun s => {| leaders := v; loading := loading s |}).
Definition setLoading (b : bool) : M State unit :=
  modify (fun s => {| leaders := leaders s; loading := b |}).

Definition mock_leader (user_id username : string) (best_score rank : Z)
  (photo_url : string) : value :=
  VObj [("user_id", VStr user_id); ("username", VStr username);
        ("best_score", VNum best_score); ("rank", VNum rank);
        ("photo_url", VStr photo_url)].

(** The mock data of the [catch] branch. *)
Definition mock_leaders : value :=
  VArr [
    mock_leader "1" "ProGamer" 15420 1 "https://via.placeholder.com/40/FFD700/FFFFFF?text=P";
    mock_leader "2" "BlockMaster" 12890 2 "https://via.placeholder.com/40/C0C0C0/FFFFFF?text=B";
    mock_leader "3" "PuzzleKing" 11230 3 "https://via.placeholder.com/40/CD7F32/FFFFFF?text=P";
    mock_leader "4" "GameHero" 9870 4 "https://via.placeholder.com/40/AAAAAA/FFFFFF?text=G";
    mock_leader "5" "BlastExpert" 8450 5 "https://via.placeholder.com/40/DDDDDD/FFFFFF?text=B"
  ].

Definition fetchLeaders (env : Env) : M State unit :=
  try_finally
    (try_catch
       (data <- axios env (GET (API env ++ "/leaderboard")) ;;
        setLeaders data)
       (fun error =>
          console_out LError "Failed to fetch leaderboard:" ;;
          setLeaders mock_leaders))
    (setLoading false).

(** One rendered row: the values the JSX puts on screen. *)
Record Row : Type := mkRow {
  key : value;
  rank : value;
  photo_url : value;
  username : value;
  best_score : value
}.

(** [leader.best_score.toLocaleString()] needs a value to call it on.
    Of what can make a row throw, only the reads from [null] and
    [undefined] are modelled: React's refusal of an object as a child and
    an own [toLocaleString] that is not callable are not. *)
Definition render_row (leader : value) : res Row :=
  match get_prop leader "user_id" with Throw e => Throw e | Ret user_id =>
  match get_prop leader "rank" with Throw e => Throw e | Ret rk =>
  match get_prop leader "photo_url" with Throw e => Throw e | Ret photo =>
  match get_prop leader "username" with Throw e => Throw e | Ret name =>
  match get_prop leader "best_score" with Throw e => Throw e | Ret best =>
  match get_prop best "toLocaleString" with Throw e => Throw e | Ret _ =>
    Ret {| key := user_id; rank := rk; photo_url := photo;
           username := name; best_score := best |}
  end end end end end end.

Fixpoint render_rows (l : list value) : res (list Row) :=
  match l with
  | [] => Ret []
  | x :: rest =>
      match render_row x with
      | Throw e => Throw e
      | Ret r =>
          match render_rows rest with
          | Throw e => Throw e
          | Ret rs => Ret (r :: rs)
          end
      end
  end.

Inductive View : Type :=
| LoadingView
| LeadersList (rows : list Row).

(** [leaders.slice(0, 50).map(...)]: only an array has both methods. *)
Definition render (s : State) : res View :=
  if loading s then Ret LoadingView
  else match leaders s with
       | VArr items =>
           match render_rows (firstn 50 items) with
           | Ret rows => Ret (LeadersList rows)
           | Throw e => Throw e
           end
       | VStr _ => Throw (TypeError "map")
       | _ => Throw (TypeError "slice")
       end.

End LeaderboardPanel.

(* ===================================================================== *)
(** ** [ProfileTab]: the profile panel *)
(* ===================================================================== *)

Module ProfilePanel.

Record State : Type := mkState { userStats : value; loading : bool }.

Definition stats_object (username avatar bestScore gamesPlayed totalScore rank : value)
  : value :=
  VObj [("username", username); ("avatar", avatar); ("bestScore", bestScore);
        ("gamesPlayed", gamesPlayed); ("totalScore", totalScore); ("rank", rank)].

Definition initial : State :=
  {| userStats := stats_object (VStr "Player") VNull (VNum 0) (VNum 0) (VNum 0) (VNum 0);
     loading := true |}.

Definition setUserStats (v : value) : M State unit :=
  modify (fun s => {| userStats := v; loading := loading s |}).
Definition setLoading (b : bool) : M State unit :=
  modify (fun s => {| userStats := userStats s; loading := b |}).

(** [user.username || user.first_name || `ID: ${user.telegram_id}`] *)
Definition display_name (user : value) : value :=
  or_else (get_opt user "username")
    (or_else (get_opt user "first_name")
       (VStr ("ID: " ++ to_string (get_opt user "telegram_id")))).

(** The object of the [try] branch; only [response.data.rank] can throw,
    [user] being truthy there. *)
Definition fetched_stats (user data : value) : res value :=
  match get_prop data "rank" with
  | Throw e => Throw e
  | Ret rank =>
      Ret (stats_object (display_name user) (get_opt user "photo_url")
             (get_opt user "best_score") (get_opt user "games_played")
             (get_opt user "total_score") rank)
  end.

(** The object of the [catch] branch. *)
Definition fallback_stats (user : value) : value :=
  stats_object (display_name user) (get_opt user "photo_url")
    (or_else (get_opt user "best_score") (VNum 0))
    (or_else (get_opt user "games_played") (VNum 0))
    (or_else (get_opt user "total_score") (VNum 0))
    (VNum 0).

Definition fetchUserStats (env : Env) (user : value) : M State unit :=
  (if truthy user && truthy (get_opt user "id") then
     try_catch
       (data <- axios env
                  (GET (API env ++ "/stats/user/" ++ to_string (get_opt user "id"))) ;;
        stats <- lift (fetched_stats user data) ;;
        setUserStats stats)
       (fun error =>
          console_out LError "Failed to fetch user stats:" ;;
          setUserStats (fallback_stats user))
   else ret tt) ;;
  setLoading false.

End ProfilePanel.

(* ===================================================================== *)
(** ** [PlayerRankOverlay] *)
(* ===================================================================== *)

Record OverlayView : Type := mkOverlay {
  shown_avatar : value;
  shown_username : value;
  shown_rank : value
}.

(** [None] is the [return null] of the component. *)
Definition PlayerRankOverlay (user userStats : value) (activeTab : string)
  : option OverlayView :=
  let showOverlay := negb (activeTab =? "profile")%string in
  if negb (truthy user) then None
  else if negb (truthy userStats) then None
  else if is_zero (get_opt userStats "rank") then None
  else if negb showOverlay then None
  else Some {| shown_avatar := get_opt userStats "avatar";
               shown_username := get_opt userStats "username";
               shown_rank := get_opt userStats "rank" |}.

(* ===================================================================== *)
(** ** The host: [window.Telegram?.WebApp] *)
(* ===================================================================== *)

(** The host object [tg], when the app runs inside the chat host: its data
    fields and whether its two lifecycle methods return normally. *)
Record TelegramWebApp : Type := mkTg {
  initDataUnsafe : value;
  initData : value;
  ready_returns : bool;
  expand_returns : bool
}.

Definition host_call {S} (name : string) (returns : bool) : M S unit :=
  if returns then ret tt else lift (Throw (HostError name)).

(* ===================================================================== *)
(** ** [App]: state, bootstrap and tab routing *)
(* ===================================================================== *)

Module App.

Record State : Type := mkState {
  activeTab : string;
  isLoading : bool;
  user : value;
  userStats : value
}.

Definition stats_object (username avatar bestScore gamesPlayed totalScore rank : value)
  : value :=
  VObj [("username", username); ("avatar", avatar); ("bestScore", bestScore);
        ("gamesPlayed", gamesPlayed); ("totalScore", totalScore); ("rank", rank)].

(** The [useState] initial values of [App]. *)
Definition initial : State :=
  {| activeTab := "game";
     isLoading := true;
     user := VNull;
     userStats := stats_object (VStr "Player") VNull (VNum 0) (VNum 0) (VNum 0) (VNum 0) |}.

Definition setActiveTab (id : string) : M State unit :=
  modify (fun s => {| activeTab := id; isLoading := isLoading s;
                      user := user s; userStats := userStats s |}).

Definition setUser (u : value) : M State unit :=
  modify (fun s => {| activeTab := activeTab s; isLoading := isLoading s;
                      user := u; userStats := userStats s |}).

Definition setUserStats (st : value) : M State unit :=
  modify (fun s => {| activeTab := activeTab s; isLoading := isLoading s;
                      user := user s; userStats := st |}).

(** The object literal both bootstrap paths pass to [setUserStats]; the
    fields are read in source order, so that the first read to throw is the
    one that throws in the source. *)
Definition merged_stats (data statsData : value) : res value :=
  match get_prop data "username" with Throw e => Throw e | Ret username =>
  match get_prop data "first_name" with Throw e => Throw e | Ret first_name =>
  match get_prop data "telegram_id" with Throw e => Throw e | Ret telegram_id =>
  match get_prop data "photo_url" with Throw e => Throw e | Ret photo_url =>
  match get_prop data "best_score" with Throw e => Throw e | Ret best_score =>
  match get_prop data "games_played" with Throw e => Throw e | Ret games_played =>
  match get_prop data "total_score" with Throw e => Throw e | Ret total_score =>
  match get_prop statsData "rank" with Throw e => Throw e | Ret rank =>
    Ret (stats_object
           (or_else username
              (or_else first_name (VStr ("ID: " ++ to_string telegram_id))))
           photo_url best_score games_played total_score rank)
  end end end end end end end end.

(** The demo identity; [telegram_id] is the random draw. *)
Definition demoUser (telegram_id : Z) : value :=
  VObj [("username", VStr "DemoPlayer"); ("first_name", VStr "Demo");
        ("last_name", VStr "Player"); ("telegram_id", VNum telegram_id)].

Definition local_user : value :=
  VObj [("id", VStr "demo-user"); ("username", VStr "DemoPlayer");
        ("best_score", VNum 0); ("total_score", VNum 0); ("games_played", VNum 0)].

Definition local_stats : value :=
  stats_object (VStr "DemoPlayer") VNull (VNum 0) (VNum 0) (VNum 0) (VNum 0).

Definition createDemoUser (env : Env) : M State unit :=
  telegram_id <- random_below env 1000000000 ;;
  try_catch
    (data <- axios env (POST (API env ++ "/users") (demoUser telegram_id) []) ;;
     setUser data ;;
     id <- lift (get_prop data "id") ;;
     statsData <- axios env (GET (API env ++ "/stats/user/" ++ to_string id)) ;;
     stats <- lift (merged_stats data statsData) ;;
     setUserStats stats ;;
     console_out LLog "Demo user initialized:")
    (fun error =>
       console_out LError "Failed to initialize demo user:" ;;
       setUser local_user ;;
       setUserStats local_stats).

(** The body sent for the host's identity.  [telegramUser] is truthy where
    this is built, so none of its property reads can throw. *)
Definition userData (telegramUser : value) : value :=
  VObj [("telegram_id", get_opt telegramUser "id");
        ("username",
          or_else (get_opt telegramUser "username")
            (VStr (to_string (get_opt telegramUser "first_name") ++ "_"
                     ++ to_string (get_opt telegramUser "id"))));
        ("first_name", get_opt telegramUser "first_name");
        ("last_name", get_opt telegramUser "last_name");
        ("photo_url", get_opt telegramUser "photo_url")].

(** [tg && tg.initDataUnsafe?.user] *)
Definition host_identity (tg : option TelegramWebApp) : value :=
  match tg with
  | Some t => get_opt (initDataUnsafe t) "user"
  | None => VUndefined
  end.

Definition initializeApp (env : Env) (tg : option TelegramWebApp) : M State unit :=
  try_finally
    (try_catch
       (match tg with
        | Some t =>
            if truthy (host_identity tg) then
              host_call "ready" (ready_returns t) ;;
              host_call "expand" (expand_returns t) ;;
              telegramUser <- lift (get_prop (initDataUnsafe t) "user") ;;
              console_out LLog "Sending userData to backend:" ;;
              try_catch
                (data <- axios env
                           (POST (API env ++ "/users") (userData telegramUser)
                              [("X-Telegram-Init-Data",
                                 or_else (initData t) (VStr ""))]) ;;
                 setUser data ;;
                 id <- lift (get_prop data "id") ;;
                 statsData <- axios env (GET (API env ++ "/stats/user/" ++ to_string id)) ;;
                 stats <- lift (merged_stats data statsData) ;;
                 setUserStats stats ;;
                 console_out LLog "User initialized with backend response:")
                (fun error =>
                   console_out LError "Failed to initialize Telegram user:" ;;
                   createDemoUser env)
            else
              console_out LWarn "Telegram WebApp is not available or user data is missing. Initializing demo user." ;;
              createDemoUser env
        | None =>
            console_out LWarn "Telegram WebApp is not available or user data is missing. Initializing demo user." ;;
            createDemoUser env
        end)
       (fun error =>
          console_out LError "App initialization error:" ;;
          createDemoUser env))
    (setTimeout 2000).

(** *** Tab routing *)

Inductive Component : Type :=
| DuelsTab | LeadersTab | BlockBlastGame | ShopTab | ProfileTab.

Record Tab : Type := mkTab { id : string; component : Component }.

Definition tabs : list Tab :=
  [ mkTab "duels" DuelsTab; mkTab "leaders" LeadersTab;
    mkTab "game" BlockBlastGame; mkTab "shop" ShopTab;
    mkTab "profile" ProfileTab ].

(** [tabs.find(tab => tab.id === activeTab)?.component || BlockBlastGame] *)
Definition ActiveComponent (active : string) : Component :=
  match find (fun tab => (id tab =? active)%string) tabs with
  | Some tab => component tab
  | None => BlockBlastGame
  end.

Inductive Screen : Type :=
| LoadingScreen
| Main (main_content : list Component)          (* children of <main> *)
       (overlay : option OverlayView)
       (nav : list (string * bool)).            (* nav buttons: tab id, active *)

Definition render (s : State) : Screen :=
  if isLoading s then LoadingScreen
  else Main [ActiveComponent (activeTab s)]
            (PlayerRankOverlay (user s) (userStats s) (activeTab s))
            (map (fun tab => (id tab, (activeTab s =? id tab)%string)) tabs).

(** A click on the nav button of tab [i]: [setActiveTab(tab.id)], if the
    button is on screen. *)
Definition select (i : string) : M State unit :=
  fun s w =>
    match render s with
    | Main _ _ nav =>
        if existsb (fun b => (fst b =? i)%string) nav
        then setActiveTab i s w else (Ret tt, s, w)
    | LoadingScreen => (Ret tt, s, w)
    end.

Definition Component_eqb (a b : Component) : bool :=
  match a, b with
  | DuelsTab, DuelsTab | LeadersTab, LeadersTab | BlockBlastGame, BlockBlastGame
  | ShopTab, ShopTab | ProfileTab, ProfileTab => true
  | _, _ => false
  end.

Definition panels (scr : Screen) : list Component :=
  match scr with
  | LoadingScreen => []
  | Main content _ _ => content
  end.

Inductive Lifecycle : Type :=
| Unmounts (c : Component)
| Mounts (c : Component).

(** React keeps a child of [<main>] whose component type is unchanged
    between two renders, unmounts the ones that left and mounts the new. *)
Definition reconcile (before after : Screen) : list Lifecycle :=
  map Unmounts
    (filter (fun c => negb (existsb (Component_eqb c) (panels after))) (panels before))
  ++ map Mounts
    (filter (fun c => negb (existsb (Component_eqb c) (panels before))) (panels after)).

(** The loading timer of the bootstrap fires: [setIsLoading(false)]. *)
Definition setIsLoading (b : bool) : M State unit :=
  modify (fun s => {| activeTab := activeTab s; isLoading := b;
                      user := user s; userStats := userStats s |}).

End App.

(* ===================================================================== *)
(** ** Vocabulary of the properties *)
(* ===================================================================== *)

Definition nonnull (v : value) : Prop := v <> VNull /\ v <> VUndefined.

Definition is_object (v : value) : Prop := exists fields, v = VObj fields.

(** Every request is rejected: the backend is unreachable. *)
Definition all_rejected (env : Env) : Prop := forall h r, network env h r = Reject.

(** [user && user.id] *)
Definition has_id (user : value) : bool := truthy user && truthy (get_opt user "id").

(** The request [initializeApp] sends for the host's identity. *)
Definition real_request (env : Env) (t : TelegramWebApp) (telegramUser : value)
  : Request :=
  POST (API env ++ "/users") (App.userData telegramUser)
    [("X-Telegram-Init-Data", or_else (initData t) (VStr ""))].

(** The request [createDemoUser] sends when [draw] random numbers were
    drawn before it. *)
Definition demo_request (env : Env) (draw : nat) : Request :=
  POST (API env ++ "/users")
    (App.demoUser (random_stream env draw mod 1000000000)) [].

Definition is_get (r : Request) : Prop := exists u, r = GET u.

Definition zero_stats (st : value) : Prop :=
  get_opt st "rank" = VNum 0 /\ get_opt st "bestScore" = VNum 0
  /\ get_opt st "gamesPlayed" = VNum 0 /\ get_opt st "totalScore" = VNum 0.

Definition stats_are (st : value) (username : string)
  (bestScore gamesPlayed totalScore rank : Z) : Prop :=
  get_opt st "username" = VStr username
  /\ get_opt st "bestScore" = VNum bestScore
  /\ get_opt st "gamesPlayed" = VNum gamesPlayed
  /\ get_opt st "totalScore" = VNum totalScore
  /\ get_opt st "rank" = VNum rank.

(** The [userStats] a fresh [App] holds once [initializeApp] has run. *)
Definition bootstrap_stats (env : Env) (tg : option TelegramWebApp) : value :=
  match App.initializeApp env tg App.initial (world0 0) with
  | (_, s, _) => App.userStats s
  end.

(** *** Concrete environments and inputs *)

(** An unreachable backend. *)
Definition env_down : Env :=
  {| BACKEND_URL := VStr "https://backend.example";
     network := fun _ _ => Reject;
     random_stream := fun _ => 123456789 |}.

(** A backend that answers every request with an empty object. *)
Definition env_up : Env :=
  {| BACKEND_URL := VStr "https://backend.example";
     network := fun _ _ => Resolve (VObj []);
     random_stream := fun _ => 4321 |}.

(** The backend of the example scenario: user creation answers
    [userRecord], the rank fetch answers [{rank: 7}]. *)
Definition scenario_env (userRecord : value) : Env :=
  {| BACKEND_URL := VStr "https://backend.example";
     network := fun _ r =>
       match r with
       | POST _ _ _ => Resolve userRecord
       | GET _ => Resolve (VObj [("rank", VNum 7)])
       end;
     random_stream := fun _ => 0 |}.

Definition alice : value := VObj [("id", VNum 42); ("username", VStr "alice")].

Definition alice_host : TelegramWebApp :=
  {| initDataUnsafe := VObj [("user", alice)];
     initData := VStr "query_id=1";
     ready_returns := true; expand_returns := true |}.

(** The user record with the field names the scenario is written in. *)
Definition spec_user_record : value :=
  VObj [("id", VStr "u1"); ("bestScore", VNum 100); ("gamesPlayed", VNum 3);
        ("totalScore", VNum 250)].

(** The same record as the backend sends it. *)
Definition wire_user_record : value :=
  VObj [("id", VStr "u1"); ("username", VStr "alice"); ("best_score", VNum 100);
        ("games_played", VNum 3); ("total_score", VNum 250)].

Definition user_without_id : value := VObj [("username", VStr "alice")].

Definition user_u1 : value := VObj [("id", VStr "u1"); ("username", VStr "alice")].

Definition playing_state : GamePanel.State :=
  {| GamePanel.score := 0; GamePanel.gameOver := false;
     GamePanel.isPlaying := true; GamePanel.gameStartTime := Some 1000 |}.

(** *** Game panel *)

(** The submission [simulateGameOver] sends from world [w]. *)
Definition score_request (env : Env) (user : value) (start : option Z) (w : World)
  : Request :=
  POST (API env ++ "/scores")
    (GamePanel.score_body (get_opt user "id")
       (random_stream env (draws w) mod 10000 + 1000)
       (GamePanel.gameDuration start (clock w))) [].

(** The state [simulateGameOver] leaves behind. *)
Definition over_state (env : Env) (s : GamePanel.State) (w : World) : GamePanel.State :=
  {| GamePanel.score := random_stream env (draws w) mod 10000 + 1000;
     GamePanel.gameOver := true; GamePanel.isPlaying := false;
     GamePanel.gameStartTime := GamePanel.gameStartTime s |}.

(** The state [startGame] leaves behind. *)
Definition started (w : World) : GamePanel.State :=
  {| GamePanel.score := 0; GamePanel.gameOver := false;
     GamePanel.isPlaying := true; GamePanel.gameStartTime := Some (clock w) |}.

(** Some button on screen calls [startGame]. *)
Definition offers_start (view : list GamePanel.Block) : bool :=
  existsb (fun b => match GamePanel.onClick b with
                    | GamePanel.HstartGame => true
                    | GamePanel.HsimulateGameOver => false
                    end)
    (GamePanel.rendered_buttons view).

Definition is_Playing (p : GamePanel.Phase) : bool :=
  match p with GamePanel.Playing => true | _ => false end.

(** While the panel is mounted exactly one interval is active, the one its
    effect installed last, and its callback captured the current
    [isPlaying]; with no panel there is no interval. *)
Definition poll_inv (pg : GamePanel.Page) : Prop :=
  match GamePanel.panel pg with
  | Some m =>
      GamePanel.effect_deps m = GamePanel.deps_of (GamePanel.state m)
      /\ (GamePanel.effect_interval m < GamePanel.next_interval pg)%nat
      /\ exists c, GamePanel.intervals pg = [(GamePanel.effect_interval m, c)]
                   /\ GamePanel.c_isPlaying c = GamePanel.isPlaying (GamePanel.state m)
  | None => GamePanel.intervals pg = []
  end.

(** *** Fetching panels and overlay *)

Definition leaderboard_request (env : Env) : Request := GET (API env ++ "/leaderboard").

Definition stats_request (env : Env) (user : value) : Request :=
  GET (API env ++ "/stats/user/" ++ to_string (get_opt user "id")).

Definition rendered_ranks (v : res LeaderboardPanel.View) : list value :=
  match v with
  | Ret (LeaderboardPanel.LeadersList rows) => map LeaderboardPanel.rank rows
  | _ => []
  end.

Definition rendered_names (v : res LeaderboardPanel.View) : list value :=
  match v with
  | Ret (LeaderboardPanel.LeadersList rows) => map LeaderboardPanel.username rows
  | _ => []
  end.

Definition mock_shown : LeaderboardPanel.State :=
  {| LeaderboardPanel.leaders := LeaderboardPanel.mock_leaders;
     LeaderboardPanel.loading := false |}.

(** A prop that is either [null] or an object. *)
Definition nullable (o : option (list (string * value))) : value :=
  match o with
  | Some fields => VObj fields
  | None => VNull
  end.

(** *** Tab router *)

Definition tab_ids : list string := map App.id App.tabs.

Definition after_select (i : string) (s : App.State) : App.State :=
  match App.select i s (world0 0) with
  | (_, s', _) => s'
  end.

Definition after_selects (ids : list string) (s : App.State) : App.State :=
  fold_left (fun st i => after_select i st) ids s.

Definition loaded : App.State :=
  {| App.activeTab := "game"; App.isLoading := false;
     App.user := App.user App.initial; App.userStats := App.userStats App.initial |}.

(* ===================================================================== *)
(** ** The re-sync effect of [App] *)
(* ===================================================================== *)

(** The second [useEffect] of [App], keyed on [user]: it fetches the rank
    of the current user again and rebuilds [userStats] from it. *)
Module UserStatsEffect.

(** The object of the [try] branch; the fields of [user] are read first,
    [response.data.rank] last, and [user] is truthy there. *)
Definition refreshed_stats (user data : value) : res value :=
  match get_prop data "rank" with
  | Throw e => Throw e
  | Ret rank =>
      Ret (App.stats_object (ProfilePanel.display_name user) (get_opt user "photo_url")
             (get_opt user "best_score") (get_opt user "games_played")
             (get_opt user "total_score") rank)
  end.

Definition fetchUserStats (env : Env) (user : value) : M App.State unit :=
  try_catch
    (data <- axios env
               (GET (API env ++ "/stats/user/" ++ to_string (get_opt user "id"))) ;;
     stats <- lift (refreshed_stats user data) ;;
     App.setUserStats stats)
    (fun error => console_out LError "Failed to refresh user stats:").

(** The effect body, with the [user] of the render it belongs to. *)
Definition effect (env : Env) : M App.State unit :=
  fun s w =>
    if truthy (App.user s) && truthy (get_opt (App.user s) "id")
    then fetchUserStats env (App.user s) s w
    else (Ret tt, s, w).

End UserStatsEffect.

(* ===================================================================== *)
(** ** Requests that never settle *)
(* ===================================================================== *)

(** [axios] is called without a timeout, so a request may also stay
    pending for ever.  The bootstrap is embedded a second time here, in
    computations that can get stuck on an [await]: neither the [catch] nor
    the [finally] of a [try] runs for a promise that never settles. *)
Module Async.

(** A backend that answers as [env_of] says, except for the requests it
    leaves unanswered (told by the earlier requests and the request). *)
Record Backend : Type := mkBackend {
  env_of : Env;
  unanswered : list Request -> Request -> bool
}.

(** A run either is over, with a result, or waits for ever on a request. *)
Inductive run (S A : Type) : Type :=
| Done (r : res A) (s : S) (w : World)
| Stuck (s : S) (w : World).
Arguments Done {S A} r s w.
Arguments Stuck {S A} s w.

Definition MA (S A : Type) : Type := S -> World -> run S A.

(** A computation without requests runs to its end. *)
Definition lift_run {S A} (c : M S A) : MA S A :=
  fun s w => match c s w with (r, s', w') => Done r s' w' end.

Definition ret {S A} (a : A) : MA S A := lift_run (ret a).

Definition bind {S A B} (c : MA S A) (k : A -> MA S B) : MA S B :=
  fun s w =>
    match c s w with
    | Done (Ret a) s' w' => k a s' w'
    | Done (Throw e) s' w' => Done (Throw e) s' w'
    | Stuck s' w' => Stuck s' w'
    end.

(** [try { c } catch (error) { h }] *)
Definition try_catch {S A} (c : MA S A) (h : exn -> MA S A) : MA S A :=
  fun s w =>
    match c s w with
    | Done (Ret a) s' w' => Done (Ret a) s' w'
    | Done (Throw e) s' w' => h e s' w'
    | Stuck s' w' => Stuck s' w'
    end.

(** [try { c } finally { f }] *)
Definition try_finally {S A} (c : MA S A) (f : MA S unit) : MA S A :=
  fun s w =>
    match c s w with
    | Done r s' w' =>
        match f s' w' with
        | Done (Ret _) s'' w'' => Done r s'' w''
        | Done (Throw e) s'' w'' => Done (Throw e) s'' w''
        | Stuck s'' w'' => Stuck s'' w''
        end
    | Stuck s' w' => Stuck s' w'
    end.

Declare Scope async_scope.
Delimit Scope async_scope with async.
Notation "x <- c ;; k" := (bind c (fun x => k))
  (at level 61, c at next level, right associativity) : async_scope.
Notation "c ;; k" := (bind c (fun _ => k))
  (at level 61, right associativity) : async_scope.
Local Open Scope async_scope.

(** [await axios...]: the request is sent; if it is left unanswered the
    run waits on it for ever. *)
Definition axios {S} (b : Backend) (r : Request) : MA S value :=
  fun s w =>
    if unanswered b (requests w) r then
      Stuck s {| requests := requests w ++ [r]; console := console w;
                 draws := draws w; clock := clock w; timeouts := timeouts w |}
    else lift_run (axios (env_of b) r) s w.

Definition lift {S A} (r : res A) : MA S A := lift_run (lift r).
Definition console_out {S} (l : LogLevel) (msg : string) : MA S unit :=
  lift_run (console_out l msg).
Definition random_below {S} (b : Backend) (n : Z) : MA S Z :=
  lift_run (random_below (env_of b) n).
Definition setTimeout {S} (delay : Z) : MA S unit := lift_run (setTimeout delay).
Definition host_call {S} (name : string) (returns : bool) : MA S unit :=
  lift_run (host_call name returns).
Definition setUser (u : value) : MA App.State unit := lift_run (App.setUser u).
Definition setUserStats (st : value) : MA App.State unit := lift_run (App.setUserStats st).

Definition API (b : Backend) : string := API (env_of b).

Definition createDemoUser (b : Backend) : MA App.State unit :=
  telegram_id <- random_below b 1000000000 ;;
  try_catch
    (data <- axios b (POST (API b ++ "/users") (App.demoUser telegram_id) []) ;;
     setUser data ;;
     id <- lift (get_prop data "id") ;;
     statsData <- axios b (GET (API b ++ "/stats/user/" ++ to_string id)) ;;
     stats <- lift (App.merged_stats data statsData) ;;
     setUserStats stats ;;
     console_out LLog "Demo user initialized:")
    (fun error =>
       console_out LError "Failed to initialize demo user:" ;;
       setUser App.local_user ;;
       setUserStats App.local_stats).

Definition initializeApp (b : Backend) (tg : option TelegramWebApp)
  : MA App.State unit :=
  try_finally
    (try_catch
       (match tg with
        | Some t =>
            if truthy (App.host_identity tg) then
              host_call "ready" (ready_returns t) ;;
              host_call "expand" (expand_returns t) ;;
              telegramUser <- lift (get_prop (initDataUnsafe t) "user") ;;
              console_out LLog "Sending userData to backend:" ;;
              try_catch
                (data <- axios b
                           (POST (API b ++ "/users") (App.userData telegramUser)
                              [("X-Telegram-Init-Data",
                                 or_else (initData t) (VStr ""))]) ;;
                 setUser data ;;
                 id <- lift (get_prop data "id") ;;
                 statsData <- axios b (GET (API b ++ "/stats/user/" ++ to_string id)) ;;
                 stats <- lift (App.merged_stats data statsData) ;;
                 setUserStats stats ;;
                 console_out LLog "User initialized with backend response:")
                (fun error =>
                   console_out LError "Failed to initialize Telegram user:" ;;
                   createDemoUser b)
            else
              console_out LWarn "Telegram WebApp is not available or user data is missing. Initializing demo user." ;;
              createDemoUser b
        | None =>
            console_out LWarn "Telegram WebApp is not available or user data is missing. Initializing demo user." ;;
            createDemoUser b
        end)
       (fun error =>
          console_out LError "App initialization error:" ;;
          createDemoUser b))
    (setTimeout 2000).

(** Every request is answered. *)
Definition answers_all (b : Backend) : Prop :=
  forall h r, unanswered b h r = false.

End Async.

(** *** The local pair, field by field *)

(** The local user of the last fallback: id [demo-user], name
    [DemoPlayer], all three counters 0. *)
Definition local_user_fields (u : value) : Prop :=
  get_opt u "id" = VStr "demo-user"
  /\ get_opt u "username" = VStr "DemoPlayer"
  /\ get_opt u "best_score" = VNum 0
  /\ get_opt u "total_score" = VNum 0
  /\ get_opt u "games_played" = VNum 0.

(** The local stats: name [DemoPlayer], no avatar, rank and counters 0. *)
Definition local_stats_fields (st : value) : Prop :=
  get_opt st "username" = VStr "DemoPlayer"
  /\ get_opt st "avatar" = VNull
  /\ get_opt st "rank" = VNum 0
  /\ get_opt st "bestScore" = VNum 0
  /\ get_opt st "gamesPlayed" = VNum 0
  /\ get_opt st "totalScore" = VNum 0.

(** A backend that answers every request as [env] says. *)
Definition answering (env : Env) : Async.Backend :=
  {| Async.env_of := env; Async.unanswered := fun _ _ => false |}.

(** A backend that never answers. *)
Definition silent : Async.Backend :=
  {| Async.env_of := env_down; Async.unanswered := fun _ _ => true |}.

(** A backend that answers user creation with an empty body, which
    [response.data] holds as the empty string, and the rank fetch with
    [{rank: 7}]. *)
Definition env_empty_body : Env :=
  {| BACKEND_URL := VStr "https://backend.example";
     network := fun _ r =>
       match r with
       | POST _ _ _ => Resolve (VStr "")
       | GET _ => Resolve (VObj [("rank", VNum 7)])
       end;
     random_stream := fun _ => 5 |}.

(** The demo panel after one session: mounted, started, ended. *)
Definition over_page : GamePanel.Page :=
  GamePanel.run env_up
    [GamePanel.EMount user_u1; GamePanel.EElapse 1000; GamePanel.EClick "start-button";
     GamePanel.EElapse 60000; GamePanel.EClick "end-game-button"]
    (GamePanel.page0 0).

(** The demo panel right after its mount. *)
Definition idle_page : GamePanel.Page :=
  GamePanel.run env_up [GamePanel.EMount user_u1] (GamePanel.page0 0).

(** The run waits on its last request, which the backend leaves
    unanswered. *)
Definition waits_on_last_request (b : Async.Backend) (w : World) : Prop :=
  exists h r, requests w = (h ++ [r])%list /\ Async.unanswered b h r = true.

(* ===================================================================== *)
(** ** Vocabulary of the further properties *)
(* ===================================================================== *)

Definition is_users_post (env : Env) (r : Request) : Prop :=
  exists body headers, r = POST (API env ++ "/users") body headers.

Definition is_stats_get (env : Env) (r : Request) : Prop :=
  exists i, r = GET (API env ++ "/stats/user/" ++ i).

(** A score submission for a user with an id and a score of [1000, 10999]. *)
Definition is_score_submission (env : Env) (r : Request) : Prop :=
  exists user_id sc duration,
    r = POST (API env ++ "/scores") (GamePanel.score_body user_id sc duration) []
    /\ truthy user_id = true /\ 1000 <= sc <= 10999.

(** What holds of the panel state in each phase of a session. *)
Definition session_ok (s : GamePanel.State) : Prop :=
  match GamePanel.phase s with
  | GamePanel.Idle => s = GamePanel.initial
  | GamePanel.Playing =>
      GamePanel.score s = 0 /\ exists t, GamePanel.gameStartTime s = Some t
  | GamePanel.Over =>
      GamePanel.isPlaying s = false /\ 1000 <= GamePanel.score s <= 10999
  end.

(** The pages a sequence of events leads to. *)
Definition reachable (env : Env) (pg : GamePanel.Page) : Prop :=
  exists now events, pg = GamePanel.run env events (GamePanel.page0 now).

Definition not_an_array (v : value) : Prop :=
  match v with VArr _ => False | _ => True end.

(** The ids of the nav buttons drawn as active. *)
Definition active_nav (scr : App.Screen) : list string :=
  match scr with
  | App.LoadingScreen => []
  | App.Main _ _ nav => map fst (filter snd nav)
  end.

Definition overlay_of (scr : App.Screen) : option OverlayView :=
  match scr with
  | App.LoadingScreen => None
  | App.Main _ o _ => o
  end.

(** The state of [App] once the loading timer has fired. *)
Definition loading_done (s : App.State) : App.State :=
  {| App.activeTab := App.activeTab s; App.isLoading := false;
     App.user := App.user s; App.userStats := App.userStats s |}.

Definition on_tab (i : string) (s : App.State) : App.State :=
  {| App.activeTab := i; App.isLoading := App.isLoading s;
     App.user := App.user s; App.userStats := App.userStats s |}.

(** The two kinds of request the bootstrap sends. *)
Definition bootstrap_request (env : Env) (r : Request) : Prop :=
  is_users_post env r \/ is_stats_get env r.

(** The host offers an identity and both of its lifecycle methods return. *)
Definition host_usable (tg : option TelegramWebApp) : bool :=
  match tg with
  | Some t => truthy (App.host_identity tg) && ready_returns t && expand_returns t
  | None => false
  end.


(** The rank fetch [initializeApp] and [createDemoUser] send for the id [i]. *)
Definition rank_request (env : Env) (i : value) : Request :=
  GET (API env ++ "/stats/user/" ++ to_string i).

Definition one_rank_fetch_at_most (env : Env) (rest : list Request) : Prop :=
  rest = [] \/ exists i, rest = [GET (API env ++ "/stats/user/" ++ i)].

(** The panel state of a page, when a panel is mounted, is [session_ok]. *)
Definition page_ok (pg : GamePanel.Page) : Prop :=
  match GamePanel.panel pg with
  | Some m => session_ok (GamePanel.state m)
  | None => True
  end.

(** The page after one more read of the body text. *)
Definition with_inspection (pg : GamePanel.Page) : GamePanel.Page :=
  {| GamePanel.panel := GamePanel.panel pg;
     GamePanel.intervals := GamePanel.intervals pg;
     GamePanel.next_interval := GamePanel.next_interval pg;
     GamePanel.inspections := S (GamePanel.inspections pg);
     GamePanel.world := GamePanel.world pg |}.

(** The row the leaderboard draws for an entry. *)
Definition row_of (leader : value) : LeaderboardPanel.Row :=
  {| LeaderboardPanel.key := get_opt leader "user_id";
     LeaderboardPanel.rank := get_opt leader "rank";
     LeaderboardPanel.photo_url := get_opt leader "photo_url";
     LeaderboardPanel.username := get_opt leader "username";
     LeaderboardPanel.best_score := get_opt leader "best_score" |}.

Definition shown (leaders : value) : LeaderboardPanel.State :=
  {| LeaderboardPanel.leaders := leaders; LeaderboardPanel.loading := false |}.

(** The state and the world a computation ends in. *)
Definition state_of {S A : Type} (r : res A * S * World) : S := snd (fst r).
Definition world_of {S A : Type} (r : res A * S * World) : World := snd r.

(** *** Further concrete environments and inputs *)


(** A backend that answers every request with [null]. *)
Definition env_null : Env :=
  {| BACKEND_URL := VStr "https://backend.example";
     network := fun _ _ => Resolve VNull;
     random_stream := fun _ => 5 |}.

(** [App] after a bootstrap that produced the user of the scenario. *)
Definition alice_state : App.State :=
  {| App.activeTab := "game"; App.isLoading := false;
     App.user := wire_user_record;
     App.userStats :=
       App.stats_object (VStr "alice") VUndefined (VNum 100) (VNum 3) (VNum 250) (VNum 7) |}.

(** [App] after a bootstrap that fell back to the local user. *)
Definition local_state : App.State :=
  {| App.activeTab := "game"; App.isLoading := false;
     App.user := App.local_user; App.userStats := App.local_stats |}.

(** A host identity without a username. *)
Definition nameless : value := VObj [("id", VNum 42); ("first_name", VStr "Al")].

(** The demo panel, mounted and started. *)
Definition playing_page : GamePanel.Page :=
  GamePanel.run env_up [GamePanel.EMount user_u1; GamePanel.EClick "start-button"]
    (GamePanel.page0 1000).

(* ===================================================================== *)
(** ** Bootstrap: [initializeApp] and [createDemoUser] *)
(* ===================================================================== *)

Lemma get_prop_ret_inv (v x : value) (k : string) :
  get_prop v k = Ret x -> nonnull v.
Proof. destruct v; cbn; intros; split; congruence. Qed.

Lemma merged_stats_object data statsData st :
  App.merged_stats data statsData = Ret st -> is_object st.
Proof.
  unfold App.merged_stats.
  repeat match goal with
         | |- context [match ?x with Ret _ => _ | Throw _ => _ end] => destruct x
         end; intros H; inversion H; eexists; reflexivity.
Qed.

(** Closes one path of a bootstrap run: the result is [Ret tt], the user is
    not null, the stats are an object, and an unreachable backend cannot
    have answered ([Hpost]). *)
Ltac settle Hid Hm Hpost :=
  do 2 eexists; split; [reflexivity|]; cbn;
  split; [split|split];
  first [ discriminate
        | apply Hid
        | eexists; reflexivity
        | eapply merged_stats_object; exact Hm
        | intros Hall; split; reflexivity
        | intros Hall; rewrite Hall in Hpost; discriminate ].

Lemma createDemoUser_spec env s w :
  exists s' w',
    App.createDemoUser env s w = (Ret tt, s', w')
    /\ nonnull (App.user s') /\ is_object (App.userStats s')
    /\ (all_rejected env ->
        App.user s' = App.local_user /\ App.userStats s' = App.local_stats).
Proof.
  unfold App.createDemoUser, bind, try_catch, random_below, axios, lift, all_rejected.
  cbn.
  destruct (network env (requests w) _) as [data|] eqn:Hpost; cbn.
  2: settle I I Hpost.
  destruct (get_prop data "id") as [i|e] eqn:Hid; cbn.
  2: settle I I Hpost.
  apply get_prop_ret_inv in Hid.
  match goal with
  | |- context [network env ?h ?r] => destruct (network env h r) as [sd|] eqn:Hget
  end; cbn.
  2: settle I I Hpost.
  destruct (App.merged_stats data sd) as [st|e] eqn:Hm; cbn.
  - settle Hid Hm Hpost.
  - settle I I Hpost.
Qed.

(** Every failing path of [initializeApp] ends in [createDemoUser]. *)
Ltac demo_branch env :=
  match goal with
  | |- context [App.createDemoUser env ?s ?w] =>
      let s' := fresh "s'" in
      let w' := fresh "w'" in
      let E := fresh "E" in
      let Hn := fresh "Hn" in
      let Ho := fresh "Ho" in
      let Hl := fresh "Hl" in
      destruct (createDemoUser_spec env s w) as (s' & w' & E & Hn & Ho & Hl);
      rewrite E; cbn -[App.createDemoUser];
      do 2 eexists; split; [reflexivity|]; cbn; auto
  end.

(** On a backend whose requests all settle: whatever the host offers (no
    host object, no identity in it, a host method that throws, an identity
    the backend rejects or answers with anything at all), [initializeApp]
    returns normally with a [user] that is neither [null] nor [undefined]
    and a [userStats] object; when every request is rejected it installs
    the local pair. *)
Theorem bootstrap_installs_user env tg s0 w0 :
  exists s w,
    App.initializeApp env tg s0 w0 = (Ret tt, s, w)
    /\ nonnull (App.user s) /\ is_object (App.userStats s)
    /\ (all_rejected env ->
        App.user s = App.local_user /\ App.userStats s = App.local_stats).
Proof.
  unfold App.initializeApp, try_finally, try_catch, bind, host_call, lift,
    console_out, setTimeout, ret, axios.
  destruct tg as [t|]; cbn -[App.createDemoUser]; [|demo_branch env].
  destruct (truthy (get_opt (initDataUnsafe t) "user"));
    cbn -[App.createDemoUser]; [|demo_branch env].
  destruct (ready_returns t); cbn -[App.createDemoUser]; [|demo_branch env].
  destruct (expand_returns t); cbn -[App.createDemoUser]; [|demo_branch env].
  destruct (get_prop (initDataUnsafe t) "user") as [tu|e];
    cbn -[App.createDemoUser]; [|demo_branch env].
  match goal with
  | |- context [network env ?h ?r] => destruct (network env h r) as [data|] eqn:Hpost
  end; cbn -[App.createDemoUser]; [|demo_branch env].
  destruct (get_prop data "id") as [i|e] eqn:Hid;
    cbn -[App.createDemoUser]; [|demo_branch env].
  apply get_prop_ret_inv in Hid.
  match goal with
  | |- context [network env ?h ?r] => destruct (network env h r) as [sd|] eqn:Hget
  end; cbn -[App.createDemoUser]; [|demo_branch env].
  destruct (App.merged_stats data sd) as [st|e] eqn:Hm;
    cbn -[App.createDemoUser]; [|demo_branch env].
  do 2 eexists; split; [reflexivity|]; cbn.
  split; [exact Hid|]. split; [eapply merged_stats_object; exact Hm|].
  intros Hall. rewrite Hall in Hpost. discriminate.
Qed.

Lemma env_down_rejects : all_rejected env_down.
Proof. intros h r. reflexivity. Qed.

Lemma bootstrap_installs_user_witness :
  exists s w,
    App.initializeApp env_down (Some alice_host) App.initial (world0 0) = (Ret tt, s, w)
    /\ App.user s = App.local_user /\ App.userStats s = App.local_stats.
Proof.
  destruct (bootstrap_installs_user env_down (Some alice_host) App.initial (world0 0))
    as (s & w & E & _ & _ & Hlocal).
  exists s, w. split; [exact E|]. exact (Hlocal env_down_rejects).
Defined.

Lemma createDemoUser_requests env s w :
  exists s' w' rest,
    App.createDemoUser env s w = (Ret tt, s', w')
    /\ requests w' = (requests w ++ demo_request env (draws w) :: rest)%list
    /\ Forall is_get rest
    /\ (network env (requests w) (demo_request env (draws w)) = Reject ->
        rest = [] /\ App.user s' = App.local_user /\ App.userStats s' = App.local_stats)
    /\ (forall data i,
           network env (requests w) (demo_request env (draws w)) = Resolve data ->
           get_prop data "id" = Ret i ->
           network env (requests w ++ [demo_request env (draws w)])%list
             (GET (API env ++ "/stats/user/" ++ to_string i)) = Reject ->
           App.user s' = App.local_user /\ App.userStats s' = App.local_stats).
Proof.
  unfold App.createDemoUser, bind, try_catch, random_below, axios, lift, demo_request.
  cbn.
  destruct (network env (requests w) _) as [data|] eqn:Hpost; cbn.
  2:{ do 3 eexists. split; [reflexivity|]. cbn.
      split; [reflexivity|]. split; [constructor|]. split; [auto|discriminate]. }
  destruct (get_prop data "id") as [i|e] eqn:Hid; cbn.
  2:{ do 3 eexists. split; [reflexivity|]. cbn.
      split; [reflexivity|]. split; [constructor|]. split; [discriminate|].
      intros d j Hd Hj. inversion Hd; subst. congruence. }
  match goal with
  | |- context [network env ?h ?r] => destruct (network env h r) as [sd|] eqn:Hget
  end; cbn.
  2:{ do 3 eexists. split; [reflexivity|]. cbn.
      split; [rewrite <- app_assoc; reflexivity|].
      split; [repeat constructor; eexists; reflexivity|]. split; [discriminate|auto]. }
  destruct (App.merged_stats data sd) as [st|e] eqn:Hm; cbn.
  - do 3 eexists. split; [reflexivity|]. cbn.
    split; [rewrite <- app_assoc; reflexivity|].
    split; [repeat constructor; eexists; reflexivity|]. split; [discriminate|].
    intros d j Hd Hj Hr. inversion Hd; subst. rewrite Hid in Hj. inversion Hj; subst.
    rewrite Hget in Hr. discriminate.
  - do 3 eexists. split; [reflexivity|]. cbn.
    split; [rewrite <- app_assoc; reflexivity|].
    split; [repeat constructor; eexists; reflexivity|]. split; [discriminate|auto].
Qed.

(** C2. When the host's identity is there and the backend rejects the user
    creation sent for it, [initializeApp] sends exactly one more user
    creation, the demo one, and nothing but rank fetches after it; when the
    demo creation is rejected too, or its rank fetch is, [userStats] is the
    local object, whose rank, best score, games played and total score are
    all 0. *)
Theorem demo_path_once env t telegramUser s0 w0 :
  get_prop (initDataUnsafe t) "user" = Ret telegramUser ->
  truthy telegramUser = true ->
  ready_returns t = true -> expand_returns t = true ->
  network env (requests w0) (real_request env t telegramUser) = Reject ->
  exists s w rest,
    App.initializeApp env (Some t) s0 w0 = (Ret tt, s, w)
    /\ requests w
       = (requests w0 ++ real_request env t telegramUser
                         :: demo_request env (draws w0) :: rest)%list
    /\ Forall is_get rest
    /\ (network env (requests w0 ++ [real_request env t telegramUser])%list
          (demo_request env (draws w0)) = Reject ->
        rest = [] /\ App.userStats s = App.local_stats /\ zero_stats (App.userStats s))
    /\ (forall data i,
           network env (requests w0 ++ [real_request env t telegramUser])%list
             (demo_request env (draws w0)) = Resolve data ->
           get_prop data "id" = Ret i ->
           network env (requests w0 ++ [real_request env t telegramUser;
                                        demo_request env (draws w0)])%list
             (GET (API env ++ "/stats/user/" ++ to_string i)) = Reject ->
           App.userStats s = App.local_stats /\ zero_stats (App.userStats s)).
Proof.
  intros Hu Ht Hr He Hrej.
  unfold App.initializeApp, try_finally, try_catch, bind, host_call, lift,
    console_out, setTimeout, ret, axios, App.host_identity, get_opt.
  rewrite Hu, Ht, Hr, He. cbn -[App.createDemoUser].
  unfold real_request in Hrej. rewrite Hrej. cbn -[App.createDemoUser].
  match goal with
  | |- context [App.createDemoUser env ?s ?w] =>
      destruct (createDemoUser_requests env s w)
        as (s' & w' & rest & E & Hq & Hg & Hz & Hz');
      rewrite E
  end.
  cbn in *. exists s'. eexists. exists rest.
  split; [reflexivity|]. cbn.
  split; [rewrite Hq, <- app_assoc; reflexivity|].
  split; [exact Hg|]. split.
  - intros Hd. destruct (Hz Hd) as (Hrest & _ & Hst). rewrite Hrest, Hst. repeat split.
  - intros data i Hd Hi Hgt. rewrite <- app_assoc in Hz'. cbn in Hz'.
    destruct (Hz' data i Hd Hi Hgt) as (_ & Hst). rewrite Hst. repeat split.
Qed.

Lemma demo_path_once_witness :
  exists s w rest,
    App.initializeApp env_down (Some alice_host) App.initial (world0 0) = (Ret tt, s, w)
    /\ requests w
       = (requests (world0 0)
            ++ real_request env_down alice_host alice
            :: demo_request env_down (draws (world0 0)) :: rest)%list
    /\ Forall is_get rest
    /\ zero_stats (App.userStats s).
Proof.
  destruct (demo_path_once env_down alice_host alice App.initial (world0 0)
              eq_refl eq_refl eq_refl eq_refl eq_refl)
    as (s & w & rest & E & Hq & Hg & Hz & _).
  exists s, w, rest. repeat split; try assumption; apply Hz; reflexivity.
Defined.

(** C7, as stated.  With the user record written in the scenario's field
    names the merged stats are not the expected ones: the name is read from
    the backend's answer, not from the host identity, and the stats are read
    from [best_score], [games_played] and [total_score]. *)
Lemma scenario_as_stated_fails :
  ~ stats_are (bootstrap_stats (scenario_env spec_user_record) (Some alice_host))
      "alice" 100 3 250 7.
Proof.
  intros (Hname & _). vm_compute in Hname. discriminate.
Qed.

(** What the scenario yields as it is stated. *)
Lemma scenario_as_stated_value :
  bootstrap_stats (scenario_env spec_user_record) (Some alice_host)
  = App.stats_object (VStr "ID: undefined") VUndefined VUndefined VUndefined
      VUndefined (VNum 7).
Proof. vm_compute. reflexivity. Qed.

(** C7, amended.  With host identity [{id: 42, username: "alice"}], user
    creation answering [{id: "u1", username: "alice", best_score: 100,
    games_played: 3, total_score: 250}] and the rank fetch answering
    [{rank: 7}], the merged stats are [{username: "alice", avatar:
    undefined, bestScore: 100, gamesPlayed: 3, totalScore: 250, rank: 7}]. *)
Theorem scenario_wire_format :
  bootstrap_stats (scenario_env wire_user_record) (Some alice_host)
  = App.stats_object (VStr "alice") VUndefined (VNum 100) (VNum 3) (VNum 250) (VNum 7)
  /\ stats_are (bootstrap_stats (scenario_env wire_user_record) (Some alice_host))
       "alice" 100 3 250 7.
Proof. vm_compute. repeat split. Qed.

(* ===================================================================== *)
(** ** Game panel: start and end of a session *)
(* ===================================================================== *)

Import GamePanel.

(** One run of [simulateGameOver]: it always returns, always leaves
    [over_state], and sends its one request exactly when [user && user.id]
    holds. *)
Lemma simulateGameOver_run env user start s w :
  exists w',
    simulateGameOver env user start s w = (Ret tt, over_state env s w, w')
    /\ requests w'
       = (requests w ++ if has_id user then [score_request env user start w] else [])%list
    /\ console w'
       = (console w ++
          if has_id user then
            match network env (requests w) (score_request env user start w) with
            | Resolve _ => [(LLog, "Score submitted successfully")]
            | Reject => [(LError, "Failed to submit score:")]
            end
          else [])%list.
Proof.
  unfold simulateGameOver, bind, try_catch, random_below, axios, setGameOver,
    setIsPlaying, setScore, modify, Date_now, console_out, ret, has_id, score_request,
    over_state.
  cbn. destruct (truthy user && truthy (get_opt user "id")); cbn.
  - destruct (network env (requests w) _); cbn; eexists; repeat split.
  - eexists. split; [reflexivity|]. cbn. rewrite !app_nil_r. split; reflexivity.
Qed.

(** C3, as stated.  A session in [Playing] whose [user] carries no [id]
    ends in [Over] without any submission attempt. *)
Lemma end_without_id_no_submission :
  phase playing_state = Playing
  /\ match simulateGameOver env_up user_without_id (gameStartTime playing_state)
             playing_state (world0 61000) with
     | (_, s', w') => phase s' = Over /\ List.length (requests w') <> 1%nat
     end.
Proof. vm_compute. split; [reflexivity|]. split; [reflexivity|discriminate]. Qed.

(** C3, amended.  From [Playing], [simulateGameOver] returns normally and
    moves the panel to [Over] ([gameOver = true], [isPlaying = false]),
    the same state whatever the backend answers; it sends exactly one score
    submission when [user] is present with an [id], and none otherwise; a
    rejected submission only adds a line to the console. *)
Theorem end_moves_to_over env user s w :
  phase s = Playing ->
  exists w',
    simulateGameOver env user (gameStartTime s) s w = (Ret tt, over_state env s w, w')
    /\ phase (over_state env s w) = Over
    /\ gameOver (over_state env s w) = true
    /\ isPlaying (over_state env s w) = false
    /\ requests w'
       = (requests w
          ++ if has_id user then [score_request env user (gameStartTime s) w] else [])%list
    /\ (has_id user = true ->
        network env (requests w) (score_request env user (gameStartTime s) w) = Reject ->
        console w' = (console w ++ [(LError, "Failed to submit score:")])%list).
Proof.
  intros _.
  destruct (simulateGameOver_run env user (gameStartTime s) s w) as (w' & E & Hq & Hc).
  exists w'. repeat split; try assumption.
  intros Hid Hrej. rewrite Hc, Hid, Hrej. reflexivity.
Qed.

Lemma end_moves_to_over_witness :
  exists w',
    simulateGameOver env_down user_u1 (gameStartTime playing_state) playing_state
      (world0 61000)
    = (Ret tt, over_state env_down playing_state (world0 61000), w')
    /\ phase (over_state env_down playing_state (world0 61000)) = Over
    /\ List.length (requests w') = 1%nat
    /\ console w' = [(LError, "Failed to submit score:")].
Proof.
  destruct (end_moves_to_over env_down user_u1 playing_state (world0 61000) eq_refl)
    as (w' & E & Hp & _ & _ & Hq & Hc).
  exists w'. split; [exact E|]. split; [exact Hp|]. split.
  - rewrite Hq. reflexivity.
  - apply Hc; reflexivity.
Defined.

(** C9. When [user] is [null] or its [id] is missing (or otherwise falsy),
    [simulateGameOver] sends no request at all, and still sets
    [gameOver = true], [isPlaying = false] and the final score; in general
    it sends exactly one request if and only if [user && user.id] holds. *)
Theorem end_without_user env user start s w :
  (user = VNull \/ truthy (get_opt user "id") = false ->
   exists w',
     simulateGameOver env user start s w = (Ret tt, over_state env s w, w')
     /\ requests w' = requests w
     /\ gameOver (over_state env s w) = true
     /\ isPlaying (over_state env s w) = false
     /\ score (over_state env s w) = random_stream env (draws w) mod 10000 + 1000)
  /\ match simulateGameOver env user start s w with
     | (_, _, w') =>
         List.length (requests w') = S (List.length (requests w)) <-> has_id user = true
     end.
Proof.
  destruct (simulateGameOver_run env user start s w) as (w' & E & Hq & _).
  split.
  - intros H.
    assert (Hid : has_id user = false).
    { unfold has_id. destruct H as [H|H]; rewrite H; [reflexivity|apply andb_false_r]. }
    exists w'. rewrite Hid, app_nil_r in Hq. repeat split; assumption.
  - rewrite E, Hq, List.length_app.
    destruct (has_id user); cbn; split; intros; try lia; congruence.
Qed.

Lemma end_without_user_witness :
  exists w',
    simulateGameOver env_up VNull (Some 1000) playing_state (world0 61000)
    = (Ret tt, over_state env_up playing_state (world0 61000), w')
    /\ requests w' = requests (world0 61000).
Proof.
  destruct (proj1 (end_without_user env_up VNull (Some 1000) playing_state (world0 61000))
              (or_introl eq_refl))
    as (w' & E & Hq & _).
  exists w'. split; assumption.
Defined.

(** C4. In both revisions of the panel a button that calls [startGame] is
    on screen exactly when the panel is not [Playing]; [startGame] leaves
    [score = 0], [isPlaying = true], [gameOver = false] and the current time
    as start time; the start button in [Idle] and the restart button in
    [Over] lead to that same state; in [Playing] a click on either is not
    dispatched and changes nothing. *)
Theorem start_transition env user view s w :
  view = render \/ view = render_demo ->
  offers_start (view s) = negb (is_Playing (phase s))
  /\ startGame s w = (Ret tt, started w, w)
  /\ score (started w) = 0 /\ isPlaying (started w) = true
  /\ gameOver (started w) = false /\ gameStartTime (started w) = Some (clock w)
  /\ (phase s = Idle ->
      click view env user "start-button" s w = (Ret tt, started w, w))
  /\ (phase s = Over ->
      click view env user "restart-button" s w = (Ret tt, started w, w))
  /\ (phase s = Playing ->
      click view env user "start-button" s w = (Ret tt, s, w)
      /\ click view env user "restart-button" s w = (Ret tt, s, w)).
Proof.
  intros [Hv|Hv]; subst view;
    unfold offers_start, click, render, render_demo, phase;
    destruct (gameOver s) eqn:Hg, (isPlaying s) eqn:Hp; cbn;
    repeat split; intros; try discriminate; reflexivity.
Qed.

Lemma start_transition_witness :
  click render env_up user_u1 "start-button" initial (world0 1000)
  = (Ret tt, started (world0 1000), world0 1000)
  /\ click render env_up user_u1 "start-button" playing_state (world0 2000)
     = (Ret tt, playing_state, world0 2000).
Proof.
  split.
  - apply (start_transition env_up user_u1 render initial (world0 1000) (or_introl eq_refl)).
    reflexivity.
  - apply (start_transition env_up user_u1 render playing_state (world0 2000)
             (or_introl eq_refl)).
    reflexivity.
Defined.

(* ===================================================================== *)
(** ** Leaderboard and profile panels: fetch failures *)
(* ===================================================================== *)

Lemma fetchLeaders_returns env s w :
  exists s' w', LeaderboardPanel.fetchLeaders env s w = (Ret tt, s', w')
                /\ LeaderboardPanel.loading s' = false.
Proof.
  unfold LeaderboardPanel.fetchLeaders, try_finally, try_catch, bind, axios. cbn.
  destruct (network env (requests w) _); cbn; do 2 eexists; split; reflexivity.
Qed.

Lemma fetchUserStats_returns env user s w :
  exists s' w', ProfilePanel.fetchUserStats env user s w = (Ret tt, s', w')
                /\ ProfilePanel.loading s' = false.
Proof.
  unfold ProfilePanel.fetchUserStats, try_finally, try_catch, bind, axios, lift, ret. cbn.
  destruct (truthy user && truthy (get_opt user "id")); cbn.
  - destruct (network env (requests w) _) as [d|]; cbn.
    + destruct (ProfilePanel.fetched_stats user d); cbn; do 2 eexists; split; reflexivity.
    + do 2 eexists; split; reflexivity.
  - do 2 eexists; split; reflexivity.
Qed.

(** C5, as stated.  A user with a best score of 100 whose rank fetch is
    rejected keeps that best score on the profile: the substituted stats
    are not zero-valued. *)
Lemma profile_fallback_keeps_user_stats :
  network env_down (requests (world0 0)) (stats_request env_down wire_user_record) = Reject
  /\ match ProfilePanel.fetchUserStats env_down wire_user_record
             ProfilePanel.initial (world0 0) with
     | (_, s, _) =>
         get_opt (ProfilePanel.userStats s) "bestScore" = VNum 100
         /\ ~ zero_stats (ProfilePanel.userStats s)
     end.
Proof.
  split; [reflexivity|]. vm_compute. split; [reflexivity|].
  intros (_ & H & _). discriminate.
Qed.

(** C5, amended.  When the leaderboard fetch is rejected the panel holds
    and renders exactly the five mock entries, ranks 1 to 5 in ascending
    order; when the rank fetch of the profile is rejected the panel shows
    rank 0 and the user's own best score, games played and total score,
    each replaced by 0 only when it is missing; neither fetch function ever
    throws, whatever the backend does. *)
Theorem fetch_failure_fallbacks env :
  (forall s w,
      network env (requests w) (leaderboard_request env) = Reject ->
      exists w',
        LeaderboardPanel.fetchLeaders env s w = (Ret tt, mock_shown, w')
        /\ rendered_ranks (LeaderboardPanel.render mock_shown)
           = [VNum 1; VNum 2; VNum 3; VNum 4; VNum 5]
        /\ rendered_names (LeaderboardPanel.render mock_shown)
           = [VStr "ProGamer"; VStr "BlockMaster"; VStr "PuzzleKing";
              VStr "GameHero"; VStr "BlastExpert"])
  /\ (forall user s w,
         has_id user = true ->
         network env (requests w) (stats_request env user) = Reject ->
         exists w',
           ProfilePanel.fetchUserStats env user s w
           = (Ret tt, {| ProfilePanel.userStats := ProfilePanel.fallback_stats user;
                         ProfilePanel.loading := false |}, w')
           /\ get_opt (ProfilePanel.fallback_stats user) "rank" = VNum 0
           /\ get_opt (ProfilePanel.fallback_stats user) "bestScore"
              = or_else (get_opt user "best_score") (VNum 0)
           /\ get_opt (ProfilePanel.fallback_stats user) "gamesPlayed"
              = or_else (get_opt user "games_played") (VNum 0)
           /\ get_opt (ProfilePanel.fallback_stats user) "totalScore"
              = or_else (get_opt user "total_score") (VNum 0))
  /\ (forall s w, exists s' w', LeaderboardPanel.fetchLeaders env s w = (Ret tt, s', w'))
  /\ (forall user s w,
         exists s' w', ProfilePanel.fetchUserStats env user s w = (Ret tt, s', w')).
Proof.
  split; [|split; [|split]].
  - intros s w Hrej.
    unfold LeaderboardPanel.fetchLeaders, try_finally, try_catch, bind, axios.
    unfold leaderboard_request in Hrej. cbn. rewrite Hrej. cbn.
    eexists. split; [reflexivity|]. split; reflexivity.
  - intros user s w Hid Hrej.
    unfold ProfilePanel.fetchUserStats, try_finally, try_catch, bind, axios, lift, ret.
    unfold has_id in Hid. unfold stats_request in Hrej. rewrite Hid.
    cbn -[String.append to_string API get_opt]. rewrite Hrej. cbn.
    eexists. split; [reflexivity|]. repeat split.
  - intros s w. destruct (fetchLeaders_returns env s w) as (s' & w' & E & _). eauto.
  - intros user s w. destruct (fetchUserStats_returns env user s w) as (s' & w' & E & _).
    eauto.
Qed.

Lemma fetch_failure_fallbacks_witness :
  (exists w',
      LeaderboardPanel.fetchLeaders env_down LeaderboardPanel.initial (world0 0)
      = (Ret tt, mock_shown, w'))
  /\ (exists w',
         ProfilePanel.fetchUserStats env_down wire_user_record ProfilePanel.initial (world0 0)
         = (Ret tt, {| ProfilePanel.userStats := ProfilePanel.fallback_stats wire_user_record;
                       ProfilePanel.loading := false |}, w')).
Proof.
  destruct (fetch_failure_fallbacks env_down) as (Hl & Hp & _).
  split.
  - destruct (Hl LeaderboardPanel.initial (world0 0) eq_refl) as (w' & E & _).
    exists w'. exact E.
  - destruct (Hp wire_user_record ProfilePanel.initial (world0 0) eq_refl eq_refl)
      as (w' & E & _).
    exists w'. exact E.
Defined.

(* ===================================================================== *)
(** ** Rank overlay *)
(* ===================================================================== *)

Lemma is_zero_spec v : is_zero v = true <-> v = VNum 0.
Proof.
  split; [|intros ->; reflexivity].
  destruct v as [| | |n| | |]; try discriminate.
  destruct n; try discriminate. reflexivity.
Qed.

(** For a [user] and a [userStats] that are each [null] or an object,
    the overlay renders nothing when [user] is [null], or [userStats] is
    [null], or [userStats.rank] is 0, or the active tab is [profile]; in
    every other state it renders the avatar, the username and the rank of
    [userStats], and that rank is not 0. *)
Theorem overlay_visibility (user userStats : option (list (string * value)))
  (tab : string) :
  (user = None \/ userStats = None
   \/ get_opt (nullable userStats) "rank" = VNum 0 \/ tab = "profile"
   -> PlayerRankOverlay (nullable user) (nullable userStats) tab = None)
  /\ (~ (user = None \/ userStats = None
         \/ get_opt (nullable userStats) "rank" = VNum 0 \/ tab = "profile")
      -> PlayerRankOverlay (nullable user) (nullable userStats) tab
         = Some {| shown_avatar := get_opt (nullable userStats) "avatar";
                   shown_username := get_opt (nullable userStats) "username";
                   shown_rank := get_opt (nullable userStats) "rank" |}
         /\ get_opt (nullable userStats) "rank" <> VNum 0).
Proof.
  unfold PlayerRankOverlay.
  destruct user as [u|], userStats as [st|]; cbn.
  2-4: split; [reflexivity | intros H; exfalso; apply H; auto].
  pose proof (is_zero_spec (assoc "rank" st)) as Hz.
  destruct (is_zero (assoc "rank" st)).
  - split; [reflexivity|]. intros H. exfalso. apply H.
    right. right. left. apply Hz. reflexivity.
  - destruct (String.eqb_spec tab "profile") as [Htab|Hne]; cbn.
    + split; [reflexivity|]. intros H. exfalso. apply H. auto.
    + split.
      * intros [H|[H|[H|H]]]; try discriminate; [|contradiction].
        apply Hz in H. discriminate.
      * intros H. split; [reflexivity|]. intros E. apply H. auto.
Qed.

Lemma overlay_visibility_witness :
  PlayerRankOverlay VNull (VObj [("username", VStr "alice"); ("rank", VNum 7)]) "game"
  = None
  /\ PlayerRankOverlay (VObj [("id", VStr "u1")])
       (VObj [("username", VStr "alice"); ("rank", VNum 0)]) "game"
     = None.
Proof.
  split.
  - apply (proj1 (overlay_visibility None
                    (Some [("username", VStr "alice"); ("rank", VNum 7)]) "game")).
    left. reflexivity.
  - apply (proj1 (overlay_visibility (Some [("id", VStr "u1")])
                    (Some [("username", VStr "alice"); ("rank", VNum 0)]) "game")).
    right. right. left. reflexivity.
Defined.

(** The overlay on screen, for a user of rank 7 on the game tab. *)
Example overlay_shows_rank :
  PlayerRankOverlay (VObj [("id", VStr "u1")])
    (VObj [("username", VStr "alice"); ("rank", VNum 7)]) "game"
  = Some {| shown_avatar := VUndefined; shown_username := VStr "alice";
            shown_rank := VNum 7 |}.
Proof. reflexivity. Qed.

(** The guard of the overlay over all values: it tests truthiness. *)
Lemma overlay_guard user userStats tab :
  PlayerRankOverlay user userStats tab = None
  <-> (truthy user = false \/ truthy userStats = false
       \/ get_opt userStats "rank" = VNum 0 \/ tab = "profile").
Proof.
  unfold PlayerRankOverlay.
  pose proof (is_zero_spec (get_opt userStats "rank")) as Hz.
  destruct (truthy user); cbn; [|split; auto].
  destruct (truthy userStats); cbn; [|split; auto].
  destruct (is_zero (get_opt userStats "rank")).
  - split; [|reflexivity]. intros _. right. right. left. apply Hz. reflexivity.
  - destruct (String.eqb_spec tab "profile") as [Htab|Hne]; cbn.
    + split; auto.
    + split; [discriminate|].
      intros [H|[H|[H|H]]]; try discriminate; [|contradiction].
      apply Hz in H. discriminate.
Qed.

(* ===================================================================== *)
(** ** Tab router *)
(* ===================================================================== *)

Lemma select_run i s w :
  App.select i s w
  = (Ret tt,
     if negb (App.isLoading s) && existsb (String.eqb i) tab_ids
     then {| App.activeTab := i; App.isLoading := App.isLoading s;
             App.user := App.user s; App.userStats := App.userStats s |}
     else s,
     w).
Proof.
  unfold App.select, App.render, tab_ids.
  destruct s as [tab [|] u st]; cbn -[String.eqb]; [reflexivity|].
  rewrite !(String.eqb_sym i).
  repeat match goal with
         | |- context [(?a =? i)%string] =>
             destruct (a =? i)%string; cbn -[String.eqb]; try reflexivity
         end.
Qed.

Lemma tab_id_cases i :
  In i tab_ids ->
  i = "duels" \/ i = "leaders" \/ i = "game" \/ i = "shop" \/ i = "profile".
Proof. cbn. intuition auto. Qed.

Lemma select_keeps_known_tab i s :
  In (App.activeTab s) tab_ids -> In (App.activeTab (after_select i s)) tab_ids.
Proof.
  intros H. unfold after_select. rewrite select_run.
  destruct (negb (App.isLoading s)); cbn [andb]; [|exact H].
  destruct (existsb (String.eqb i) tab_ids) eqn:E; [|exact H].
  cbn [App.activeTab]. apply existsb_exists in E. destruct E as (x & Hx & Hix).
  apply String.eqb_eq in Hix. subst. exact Hx.
Qed.

(** C6. The selected tab starts as [game]; the tab ids are [duels],
    [leaders], [game], [shop], [profile]; from any state whose selected tab
    is one of them, loaded or not, any sequence of nav clicks, on whatever
    ids, leaves the selected tab one of them; selecting an id of the set
    makes it the selected tab and puts exactly one panel under [<main>],
    the component of that tab; selecting it again leaves the state as it is
    and neither mounts nor unmounts a panel. *)
Theorem tab_router :
  App.activeTab App.initial = "game"
  /\ tab_ids = ["duels"; "leaders"; "game"; "shop"; "profile"]
  /\ (forall ids s,
         In (App.activeTab s) tab_ids ->
         In (App.activeTab (after_selects ids s)) tab_ids)
  /\ (forall i s w,
         In i tab_ids -> App.isLoading s = false ->
         exists s',
           App.select i s w = (Ret tt, s', w)
           /\ App.activeTab s' = i
           /\ App.panels (App.render s') = [App.ActiveComponent i]
           /\ In (App.mkTab i (App.ActiveComponent i)) App.tabs
           /\ App.select i s' w = (Ret tt, s', w)
           /\ App.reconcile (App.render s') (App.render (after_select i s')) = []).
Proof.
  split; [reflexivity|]. split; [reflexivity|]. split.
  - intros ids. induction ids as [|i ids IH]; intros s Hs; [exact Hs|].
    cbn. apply IH. apply select_keeps_known_tab. exact Hs.
  - intros i s w Hi Hl.
    assert (Hex : existsb (String.eqb i) tab_ids = true).
    { apply existsb_exists. exists i. split; [exact Hi|apply String.eqb_refl]. }
    set (s' := {| App.activeTab := i; App.isLoading := false;
                  App.user := App.user s; App.userStats := App.userStats s |}).
    assert (H1 : forall w0, App.select i s w0 = (Ret tt, s', w0)).
    { intros w0. rewrite select_run, Hl, Hex. reflexivity. }
    assert (H2 : forall w0, App.select i s' w0 = (Ret tt, s', w0)).
    { intros w0. rewrite select_run. cbn [App.isLoading s' negb andb].
      rewrite Hex. reflexivity. }
    exists s'. split; [apply H1|]. split; [reflexivity|].
    unfold after_select. rewrite !H2.
    unfold App.render. cbn [App.isLoading App.activeTab App.panels s'].
    apply tab_id_cases in Hi.
    destruct Hi as [-> | [-> | [-> | [-> | ->]]]]; cbn; auto 10.
Qed.

Lemma tab_router_witness :
  (exists s',
      App.select "shop" loaded (world0 0) = (Ret tt, s', world0 0)
      /\ App.activeTab s' = "shop"
      /\ App.panels (App.render s') = [App.ShopTab]
      /\ App.select "shop" s' (world0 0) = (Ret tt, s', world0 0))
  /\ In (App.activeTab (after_selects ["shop"; "settings"; "leaders"; ""] loaded)) tab_ids.
Proof.
  split.
  - destruct (proj2 (proj2 (proj2 tab_router)) "shop" loaded (world0 0))
      as (s' & E & Ha & Hp & _ & Hagain & _).
    + cbn. auto.
    + reflexivity.
    + exists s'. repeat split; assumption.
  - apply (proj1 (proj2 (proj2 tab_router)) ["shop"; "settings"; "leaders"; ""] loaded).
    cbn. auto.
Defined.

(** The clicks of that sequence that reach a button do select its tab. *)
Example nav_clicks_select :
  App.activeTab (after_selects ["shop"; "settings"; "leaders"; ""] loaded) = "leaders".
Proof. reflexivity. Qed.

(** Switching to another tab does replace the panel. *)
Example switching_tabs_remounts :
  App.reconcile (App.render loaded) (App.render (after_select "shop" loaded))
  = [App.Unmounts App.BlockBlastGame; App.Mounts App.ShopTab].
Proof. reflexivity. Qed.

(* ===================================================================== *)
(** ** The poll of the demo revision: life cycle of its interval *)
(* ===================================================================== *)

Section PollLifeCycle.

Variable env : Env.

Lemma deps_eqb_eq a b : deps_eqb a b = true -> a = b.
Proof.
  destruct a as [p [x|]], b as [q [y|]]; unfold deps_eqb; cbn;
    intros H; apply andb_prop in H; destruct H as [Hp Hx];
    apply Bool.eqb_prop in Hp; subst; try discriminate; [|reflexivity].
  apply Z.eqb_eq in Hx. subst. reflexivity.
Qed.

Lemma deps_eqb_refl a : deps_eqb a a = true.
Proof.
  destruct a as [p [x|]]; unfold deps_eqb; cbn;
    rewrite Bool.eqb_reflx; [apply Z.eqb_refl|reflexivity].
Qed.

Lemma clear_own_interval id c : clearInterval id [(id, c)] = [].
Proof. unfold clearInterval. cbn. rewrite Nat.eqb_refl. reflexivity. Qed.

Lemma In_clearInterval id t l : In t (clearInterval id l) -> In t l.
Proof. unfold clearInterval. intros H. apply filter_In in H. apply H. Qed.

(** *** The invariant is kept by every event *)

Lemma commit_inv m s w pg :
  panel pg = Some m -> poll_inv pg -> poll_inv (commit m s w pg).
Proof.
  unfold poll_inv. intros Hm. rewrite Hm. intros (Hd & Hlt & c & Hi & Hc).
  unfold commit. destruct (deps_eqb (effect_deps m) (deps_of s)) eqn:E; cbn.
  - apply deps_eqb_eq in E. split; [exact E|]. split; [exact Hlt|].
    exists c. split; [exact Hi|].
    rewrite Hc. rewrite Hd in E. unfold deps_of in E. congruence.
  - split; [reflexivity|]. split; [lia|].
    rewrite Hi, clear_own_interval. eexists. split; reflexivity.
Qed.

Lemma step_inv e pg : poll_inv pg -> poll_inv (step env e pg).
Proof.
  intros Hinv. destruct e as [user| |user|cls|id body sc|ms]; unfold step.
  - destruct (panel pg) as [m|] eqn:Hm; [exact Hinv|].
    unfold poll_inv in *. rewrite Hm in Hinv. cbn. rewrite Hinv.
    split; [reflexivity|]. split; [lia|]. eexists. split; reflexivity.
  - destruct (panel pg) as [m|] eqn:Hm; [|exact Hinv].
    unfold poll_inv in *. rewrite Hm in Hinv. cbn.
    destruct Hinv as (_ & _ & c & Hi & _). rewrite Hi. apply clear_own_interval.
  - destruct (panel pg) as [m|] eqn:Hm; [|exact Hinv].
    unfold poll_inv in *. rewrite Hm in Hinv. cbn. exact Hinv.
  - destruct (panel pg) as [m|] eqn:Hm; [|exact Hinv].
    destruct (click render_demo env (props_user m) cls (state m) (world pg)) as [[r s] w].
    apply commit_inv; assumption.
  - destruct (lookup_interval id (intervals pg)) as [c|] eqn:Hl; [|exact Hinv].
    destruct (panel pg) as [m|] eqn:Hm.
    + destruct (callback env c body sc (state m) (world pg)) as [[r s] w].
      apply commit_inv; [reflexivity|].
      unfold poll_inv in *. cbn. rewrite Hm in Hinv. exact Hinv.
    + unfold poll_inv in Hinv. rewrite Hm in Hinv. rewrite Hinv in Hl. discriminate.
  - unfold poll_inv in *. cbn. destruct (panel pg); exact Hinv.
Qed.

Lemma run_inv events pg : poll_inv pg -> poll_inv (run env events pg).
Proof.
  revert pg. induction events as [|e events IH]; intros pg H; [exact H|].
  cbn. apply IH. apply step_inv. exact H.
Qed.

Lemma page0_inv now : poll_inv (page0 now).
Proof. reflexivity. Qed.

(** *** Interval ids are never handed out twice *)

Lemma commit_intervals m s w pg t :
  In t (intervals (commit m s w pg)) ->
  In t (intervals pg) \/ fst t = next_interval pg.
Proof.
  unfold commit. destruct (deps_eqb _ _); cbn; [auto|].
  intros H. apply in_app_or in H. destruct H as [H|[H|[]]].
  - left. eapply In_clearInterval; eauto.
  - right. subst. reflexivity.
Qed.

Lemma commit_next m s w pg : (next_interval pg <= next_interval (commit m s w pg))%nat.
Proof. unfold commit. destruct (deps_eqb _ _); cbn; lia. Qed.

(** An interval of the page after an event either was there before, with
    the same closure, or carries the id that was next to be handed out. *)
Lemma step_intervals e pg t :
  In t (intervals (step env e pg)) ->
  In t (intervals pg) \/ fst t = next_interval pg.
Proof.
  destruct e as [user| |user|cls|id body sc|ms]; unfold step.
  - destruct (panel pg); [auto|]. cbn. intros H. apply in_app_or in H.
    destruct H as [H|[H|[]]]; [auto|]. right. subst. reflexivity.
  - destruct (panel pg); [|auto]. cbn. intros H. left. eapply In_clearInterval; eauto.
  - destruct (panel pg); auto.
  - destruct (panel pg) as [m|]; [|auto].
    destruct (click render_demo env (props_user m) cls (state m) (world pg)) as [[r s] w].
    apply commit_intervals.
  - destruct (lookup_interval id (intervals pg)) as [c|]; [|auto].
    destruct (panel pg) as [m|].
    + destruct (callback env c body sc (state m) (world pg)) as [[r s] w].
      intros H. apply commit_intervals in H. exact H.
    + destruct (callback env c body sc initial (world pg)) as [[r s] w]. cbn. auto.
  - cbn. auto.
Qed.

Lemma step_next e pg : (next_interval pg <= next_interval (step env e pg))%nat.
Proof.
  destruct e as [user| |user|cls|id body sc|ms]; unfold step.
  - destruct (panel pg); cbn; lia.
  - destruct (panel pg); cbn; lia.
  - destruct (panel pg); cbn; lia.
  - destruct (panel pg) as [m|]; [|lia].
    destruct (click render_demo env (props_user m) cls (state m) (world pg)) as [[r s] w].
    apply commit_next.
  - destruct (lookup_interval id (intervals pg)) as [c|]; [|lia].
    destruct (panel pg) as [m|].
    + destruct (callback env c body sc (state m) (world pg)) as [[r s] w].
      etransitivity; [|apply commit_next]. cbn. lia.
    + destruct (callback env c body sc initial (world pg)) as [[r s] w]. cbn. lia.
  - cbn. lia.
Qed.

Lemma run_old_intervals events pg t :
  In t (intervals (run env events pg)) ->
  (fst t < next_interval pg)%nat ->
  In t (intervals pg).
Proof.
  revert pg. induction events as [|e events IH]; intros pg H Hlt; [exact H|].
  cbn in H. apply IH in H.
  - apply step_intervals in H. destruct H as [H|H]; [exact H|lia].
  - pose proof (step_next e pg). lia.
Qed.

Lemma active_In id pg : active id pg = true -> exists c, In (id, c) (intervals pg).
Proof.
  unfold active. intros H. apply existsb_exists in H. destruct H as ((i & c) & Hin & E).
  cbn in E. apply Nat.eqb_eq in E. subst. eauto.
Qed.

(** Outside [Playing] a tick of the interval reads nothing and changes
    nothing. *)
Lemma idle_tick_is_inert pg id body sc :
  poll_inv pg -> playing pg = false -> step env (ETick id body sc) pg = pg.
Proof.
  unfold poll_inv, playing, step.
  destruct pg as [[[u st d iv]|] ivs nxt insp w]; cbn.
  - intros (Hd & _ & c & -> & Hc) Hp. cbn.
    destruct (Nat.eqb iv id); [|reflexivity].
    unfold callback, commit. cbn. rewrite Hc, Hp. cbn.
    subst d. rewrite deps_eqb_refl. reflexivity.
  - intros -> _. reflexivity.
Qed.

(** C8, amended.  Along any sequence of events of the page (mounts,
    unmounts, prop changes, clicks, ticks, passing time), starting with no
    panel and no timer: the interval that is active while the game is
    [Playing] is cleared, and so no longer active, at any later moment at
    which the game is not [Playing] or the panel is unmounted; once the
    panel is unmounted no interval is left; but while the panel is mounted
    the effect has armed an interval again, so that exactly one is active in
    every phase, the one whose callback captured the current [isPlaying];
    outside [Playing] a tick of it inspects nothing and changes nothing. *)
Theorem poll_torn_down now events1 events2 :
  let p1 := run env events1 (page0 now) in
  let p2 := run env events2 p1 in
  (playing p1 = true -> playing p2 = false ->
   forall id, active id p1 = true -> active id p2 = false)
  /\ (panel p2 = None -> intervals p2 = [])
  /\ (playing p2 = false ->
      forall id bodyText screenScore, step env (ETick id bodyText screenScore) p2 = p2)
  /\ (List.length (intervals p2) <= 1)%nat
  /\ (forall m, panel p2 = Some m ->
      exists c, intervals p2 = [(effect_interval m, c)]
                /\ c_isPlaying c = isPlaying (state m)).
Proof.
  intros p1 p2.
  assert (I1 : poll_inv p1) by (apply run_inv, page0_inv).
  assert (I2 : poll_inv p2) by (apply run_inv, I1).
  split; [|split; [|split; [|split]]].
  - intros P1 P2 id A1.
    destruct (active id p2) eqn:A2; [exfalso|reflexivity].
    apply active_In in A1. destruct A1 as (c1 & In1).
    apply active_In in A2. destruct A2 as (c2 & In2).
    unfold poll_inv, playing in *.
    destruct (panel p1) as [m1|]; [|discriminate].
    destruct I1 as (_ & Hlt & c & Hi1 & Hc1).
    rewrite Hi1 in In1. destruct In1 as [E|[]]. inversion E; subst.
    destruct (panel p2) as [m2|].
    + destruct I2 as (_ & _ & c' & Hi2 & Hc2).
      assert (Hold : In (effect_interval m1, c2) (intervals p1)).
      { apply (run_old_intervals events2); [exact In2|exact Hlt]. }
      rewrite Hi1 in Hold. destruct Hold as [E'|[]]. inversion E'; subst.
      rewrite Hi2 in In2. destruct In2 as [E''|[]]. inversion E''; subst.
      congruence.
    + rewrite I2 in In2. destruct In2.
  - intros Hn. unfold poll_inv in I2. rewrite Hn in I2. exact I2.
  - intros P2 id body sc. apply idle_tick_is_inert; assumption.
  - unfold poll_inv in I2. destruct (panel p2).
    + destruct I2 as (_ & _ & c & -> & _). cbn. lia.
    + rewrite I2. cbn. lia.
  - intros m Hm. unfold poll_inv in I2. rewrite Hm in I2.
    destruct I2 as (_ & _ & c & Hi & Hc). exists c. split; assumption.
Qed.

End PollLifeCycle.

(** A session of the demo panel: mounted, started, ended by the button.
    The interval of the [Playing] phase has id 2. *)
Lemma poll_torn_down_witness :
  active 2 (run env_up [EMount user_u1; EElapse 1000; EClick "start-button"] (page0 0))
  = true
  /\ active 2
       (run env_up [EElapse 60000; EClick "end-game-button"]
          (run env_up [EMount user_u1; EElapse 1000; EClick "start-button"] (page0 0)))
     = false
  /\ intervals
       (run env_up [EElapse 60000; EClick "end-game-button"; EUnmount]
          (run env_up [EMount user_u1; EElapse 1000; EClick "start-button"] (page0 0)))
     = [].
Proof.
  split; [reflexivity|]. split.
  - apply (proj1 (poll_torn_down env_up 0
                    [EMount user_u1; EElapse 1000; EClick "start-button"]
                    [EElapse 60000; EClick "end-game-button"])); reflexivity.
  - apply (proj1 (proj2 (poll_torn_down env_up 0
                    [EMount user_u1; EElapse 1000; EClick "start-button"]
                    [EElapse 60000; EClick "end-game-button"; EUnmount]))); reflexivity.
Defined.

(** After the game is over the effect has run again: the interval of the
    [Playing] phase is gone and a new one, whose callback captured
    [isPlaying = false], is in place. *)
Example interval_after_game_over :
  map (fun t => (fst t, c_isPlaying (snd t)))
    (intervals
       (run env_up [EMount user_u1; EElapse 1000; EClick "start-button";
                    EElapse 60000; EClick "end-game-button"] (page0 0)))
  = [(3%nat, false)].
Proof. reflexivity. Qed.

(** The poll itself ends a session: a tick during [Playing] that finds the
    marker submits a score and moves the panel to [Over]. *)
Example tick_ends_the_game :
  let pg := run env_up [EMount user_u1; EElapse 1000; EClick "start-button";
                        EElapse 500; ETick 2 "Score 1,200 No Space Left" 1200]
              (page0 0) in
  playing pg = false
  /\ option_map (fun m => phase (state m)) (panel pg) = Some Over
  /\ List.length (requests (world pg)) = 1%nat
  /\ inspections pg = 1%nat.
Proof. vm_compute. repeat split. Qed.

(* ===================================================================== *)
(** ** Further properties of the bootstrap *)
(* ===================================================================== *)

Lemma createDemoUser_cases env s w :
  exists s' w' rest,
    App.createDemoUser env s w = (Ret tt, s', w')
    /\ requests w' = (requests w ++ demo_request env (draws w) :: rest)%list
    /\ (rest = [] \/ exists u, rest = [GET (API env ++ "/stats/user/" ++ u)])
    /\ timeouts w' = timeouts w /\ clock w' = clock w
    /\ App.activeTab s' = App.activeTab s /\ App.isLoading s' = App.isLoading s
    /\ ((App.user s' = App.local_user /\ App.userStats s' = App.local_stats)
        \/ (network env (requests w) (demo_request env (draws w)) = Resolve (App.user s')
            /\ exists sd, App.merged_stats (App.user s') sd = Ret (App.userStats s'))).
Proof.
  unfold App.createDemoUser, bind, try_catch, random_below, axios, lift, demo_request.
  cbn.
  destruct (network env (requests w) _) as [data|] eqn:Hpost; cbn.
  2:{ exists (App.mkState (App.activeTab s) (App.isLoading s) App.local_user App.local_stats).
      eexists. exists []. cbn. repeat split; auto. }
  destruct (get_prop data "id") as [i|e] eqn:Hid; cbn.
  2:{ exists (App.mkState (App.activeTab s) (App.isLoading s) App.local_user App.local_stats).
      eexists. exists []. cbn. repeat split; auto. }
  match goal with
  | |- context [network env ?h ?r] => destruct (network env h r) as [sd|] eqn:Hget
  end; cbn.
  2:{ exists (App.mkState (App.activeTab s) (App.isLoading s) App.local_user App.local_stats).
      eexists. exists [GET (API env ++ "/stats/user/" ++ to_string i)]. cbn.
      rewrite <- app_assoc. repeat split; eauto. }
  destruct (App.merged_stats data sd) as [st|e] eqn:Hm; cbn.
  - exists (App.mkState (App.activeTab s) (App.isLoading s) data st).
    eexists. exists [GET (API env ++ "/stats/user/" ++ to_string i)]. cbn.
    rewrite <- app_assoc. repeat split; eauto.
  - exists (App.mkState (App.activeTab s) (App.isLoading s) App.local_user App.local_stats).
    eexists. exists [GET (API env ++ "/stats/user/" ++ to_string i)]. cbn.
    rewrite <- app_assoc. repeat split; eauto.
Qed.




Ltac all_bootstrap_requests :=
  repeat (apply Forall_cons;
          [first [ left; do 2 eexists; reflexivity
                 | right; eexists; reflexivity ]|]);
  apply Forall_nil.

(** One path of [initializeApp] that ends in [createDemoUser], after the
    requests [pre] were sent. *)
Ltac demo_frame env pre :=
  match goal with
  | |- context [App.createDemoUser env ?s ?w] =>
      let s' := fresh "s'" in
      let w' := fresh "w'" in
      let rest := fresh "rest" in
      let E := fresh "E" in
      let Hq := fresh "Hq" in
      let Hrest := fresh "Hrest" in
      let Ht := fresh "Ht" in
      let Hc := fresh "Hc" in
      let Ha := fresh "Ha" in
      let Hl := fresh "Hl" in
      destruct (createDemoUser_cases env s w)
        as (s' & w' & rest & E & Hq & Hrest & Ht & Hc & Ha & Hl & _);
      rewrite E; cbn -[App.createDemoUser];
      exists s'; eexists;
      exists (pre ++ demo_request env (draws w) :: rest)%list;
      split; [reflexivity|]; cbn in *;
      rewrite Hq, Ht, Hc, Ha, Hl; rewrite <- ?app_assoc; cbn;
      split; [reflexivity|];
      split; [destruct Hrest as [Hrest|[u Hrest]]; rewrite Hrest; cbn; lia|];
      split; [destruct Hrest as [Hrest|[u Hrest]]; rewrite Hrest;
              all_bootstrap_requests|];
      repeat split; reflexivity
  end.

Lemma initializeApp_frame env tg s0 w0 :
  exists s w new,
    App.initializeApp env tg s0 w0 = (Ret tt, s, w)
    /\ requests w = (requests w0 ++ new)%list
    /\ (1 <= List.length new <= 4)%nat
    /\ Forall (bootstrap_request env) new
    /\ timeouts w = (timeouts w0 ++ [2000])%list
    /\ clock w = clock w0
    /\ App.activeTab s = App.activeTab s0
    /\ App.isLoading s = App.isLoading s0.
Proof.
  unfold App.initializeApp, try_finally, try_catch, bind, host_call, lift,
    console_out, setTimeout, ret, axios.
  destruct tg as [t|]; cbn -[App.createDemoUser]; [|demo_frame env (@nil Request)].
  destruct (truthy (get_opt (initDataUnsafe t) "user"));
    cbn -[App.createDemoUser]; [|demo_frame env (@nil Request)].
  destruct (ready_returns t); cbn -[App.createDemoUser]; [|demo_frame env (@nil Request)].
  destruct (expand_returns t); cbn -[App.createDemoUser]; [|demo_frame env (@nil Request)].
  destruct (get_prop (initDataUnsafe t) "user") as [tu|e];
    cbn -[App.createDemoUser]; [|demo_frame env (@nil Request)].
  match goal with
  | |- context [network env ?h ?r] => destruct (network env h r) as [data|] eqn:Hpost
  end; cbn -[App.createDemoUser]; [|demo_frame env [real_request env t tu]].
  destruct (get_prop data "id") as [i|e] eqn:Hid;
    cbn -[App.createDemoUser]; [|demo_frame env [real_request env t tu]].
  match goal with
  | |- context [network env ?h ?r] => destruct (network env h r) as [sd|] eqn:Hget
  end; cbn -[App.createDemoUser];
    [|demo_frame env [real_request env t tu; GET (API env ++ "/stats/user/" ++ to_string i)]].
  destruct (App.merged_stats data sd) as [st|e] eqn:Hm;
    cbn -[App.createDemoUser];
    [|demo_frame env [real_request env t tu; GET (API env ++ "/stats/user/" ++ to_string i)]].
  do 2 eexists. exists [real_request env t tu; GET (API env ++ "/stats/user/" ++ to_string i)].
  split; [reflexivity|]. cbn. rewrite <- app_assoc. cbn.
  split; [reflexivity|]. split; [lia|].
  split; [all_bootstrap_requests|].
  repeat split; reflexivity.
Qed.

(** X2. One run of [initializeApp] sends at least one and at most four
    requests, each a user creation ([POST /users]) or a rank fetch
    ([GET /stats/user/...]). *)
Theorem bootstrap_request_budget env tg s0 w0 :
  exists s w new,
    App.initializeApp env tg s0 w0 = (Ret tt, s, w)
    /\ requests w = (requests w0 ++ new)%list
    /\ (1 <= List.length new <= 4)%nat
    /\ Forall (bootstrap_request env) new.
Proof.
  destruct (initializeApp_frame env tg s0 w0)
    as (s & w & new & E & Hq & Hn & Hk & _).
  exists s, w, new. repeat split; try assumption; apply Hn.
Qed.

Lemma demo_draw_in_range env k :
  0 <= random_stream env k mod 1000000000 < 1000000000.
Proof. apply Z.mod_pos_bound. lia. Qed.

Ltac demo_only env w0 :=
  match goal with
  | |- context [App.createDemoUser env ?s ?w] =>
      let s' := fresh "s'" in
      let w' := fresh "w'" in
      let rest := fresh "rest" in
      let E := fresh "E" in
      let Hq := fresh "Hq" in
      let Hrest := fresh "Hrest" in
      destruct (createDemoUser_cases env s w) as (s' & w' & rest & E & Hq & Hrest & _);
      rewrite E; cbn -[App.createDemoUser];
      exists s'; eexists; exists rest;
      exists (random_stream env (draws w0) mod 1000000000);
      split; [reflexivity|]; cbn in Hq |- *; rewrite Hq; unfold demo_request;
      split; [reflexivity|]; split; [apply demo_draw_in_range | exact Hrest]
  end.

(** X3. Without a usable host (no host object, no identity in it, or a
    lifecycle method that throws) the first request of the bootstrap is the
    demo user creation: no init-data header, a [telegram_id] in
    [0, 10^9), followed by at most one rank fetch.  The host's identity is
    never sent. *)
Theorem unusable_host_goes_demo env tg s0 w0 :
  host_usable tg = false ->
  exists s w rest n,
    App.initializeApp env tg s0 w0 = (Ret tt, s, w)
    /\ requests w
       = (requests w0 ++ POST (API env ++ "/users") (App.demoUser n) [] :: rest)%list
    /\ 0 <= n < 1000000000
    /\ one_rank_fetch_at_most env rest.
Proof.
  intros Hu.
  unfold App.initializeApp, try_finally, try_catch, bind, host_call, lift,
    console_out, setTimeout, ret, axios.
  unfold host_usable in Hu.
  destruct tg as [t|]; cbn -[App.createDemoUser App.host_identity] in *;
    [|demo_only env w0].
  destruct (truthy (App.host_identity (Some t))) eqn:Hi;
    cbn -[App.createDemoUser] in *; [|demo_only env w0].
  destruct (ready_returns t); cbn -[App.createDemoUser] in *; [|demo_only env w0].
  rewrite Hu. cbn -[App.createDemoUser]. demo_only env w0.
Qed.

Ltac stepc := cbn -[App.createDemoUser String.append to_string API real_request].

Section RealPath.

Variables (env : Env) (t : TelegramWebApp) (telegramUser : value).
Variables (s0 : App.State) (w0 : World).

Hypothesis Hidentity : get_prop (initDataUnsafe t) "user" = Ret telegramUser.
Hypothesis Htruthy : truthy telegramUser = true.
Hypothesis Hready : ready_returns t = true.
Hypothesis Hexpand : expand_returns t = true.

Local Abbreviation real := (real_request env t telegramUser).

Lemma real_path_enter :
  App.initializeApp env (Some t) s0 w0
  = try_finally
      (try_catch
         (try_catch
            (data <- axios env real ;;
             App.setUser data ;;
             id <- lift (get_prop data "id") ;;
             statsData <- axios env (GET (API env ++ "/stats/user/" ++ to_string id)) ;;
             stats <- lift (App.merged_stats data statsData) ;;
             App.setUserStats stats ;;
             console_out LLog "User initialized with backend response:")
            (fun error =>
               console_out LError "Failed to initialize Telegram user:" ;;
               App.createDemoUser env))
         (fun error =>
            console_out LError "App initialization error:" ;;
            App.createDemoUser env))
      (setTimeout 2000) s0
      {| requests := requests w0;
         console := (console w0 ++ [(LLog, "Sending userData to backend:")])%list;
         draws := draws w0; clock := clock w0; timeouts := timeouts w0 |}.
Proof.
  unfold App.initializeApp, try_finally, try_catch, bind, host_call, lift,
    console_out, setTimeout, ret, App.host_identity, get_opt, real_request.
  rewrite Hidentity, Htruthy, Hready, Hexpand. reflexivity.
Qed.

(** X4. When the creation for the host's identity resolves with a record
    whose [id] can be read and the rank fetch resolves with a readable
    [rank], the bootstrap installs that record as [user] and the merged
    stats, having sent exactly those two requests and drawn no demo id. *)
Theorem real_path_success data i sd st :
  network env (requests w0) real = Resolve data ->
  get_prop data "id" = Ret i ->
  network env (requests w0 ++ [real])%list (rank_request env i) = Resolve sd ->
  App.merged_stats data sd = Ret st ->
  exists w,
    App.initializeApp env (Some t) s0 w0
    = (Ret tt, {| App.activeTab := App.activeTab s0; App.isLoading := App.isLoading s0;
                  App.user := data; App.userStats := st |}, w)
    /\ requests w = (requests w0 ++ [real; rank_request env i])%list
    /\ draws w = draws w0.
Proof.
  intros Hpost Hid Hget Hm. rewrite real_path_enter.
  unfold try_finally, try_catch, bind, axios, lift, setTimeout, console_out, rank_request in *.
  stepc. rewrite Hpost. stepc.
  rewrite Hid. stepc. rewrite Hget. stepc.
  rewrite Hm. cbn. eexists. split; [reflexivity|]. cbn.
  rewrite <- app_assoc. split; reflexivity.
Qed.



End RealPath.

(* ===================================================================== *)
(** ** Identity, display names and the re-sync effect *)
(* ===================================================================== *)

Lemma truthy_nonempty_suffix a c b : truthy (VStr (a ++ String c b)) = true.
Proof. destruct a; reflexivity. Qed.

Lemma truthy_nonempty_prefix c a b : truthy (VStr (String c a ++ b)) = true.
Proof. reflexivity. Qed.

Lemma truthy_or_else a b : truthy b = true -> truthy (or_else a b) = true.
Proof. unfold or_else. destruct (truthy a) eqn:E; auto. Qed.

(** X7. The body built from the host's identity always carries a truthy
    [username]: the host's own when it is truthy, otherwise
    [first_name_id]; [telegram_id] is the host's [id]. *)
Theorem userData_username_never_empty telegramUser :
  truthy (get_opt (App.userData telegramUser) "username") = true
  /\ get_opt (App.userData telegramUser) "telegram_id" = get_opt telegramUser "id"
  /\ (truthy (get_opt telegramUser "username") = true ->
      get_opt (App.userData telegramUser) "username" = get_opt telegramUser "username")
  /\ (truthy (get_opt telegramUser "username") = false ->
      get_opt (App.userData telegramUser) "username"
      = VStr (to_string (get_opt telegramUser "first_name") ++ "_"
                ++ to_string (get_opt telegramUser "id"))).
Proof.
  unfold App.userData.
  cbn -[String.append to_string or_else get_opt truthy].
  split; [apply truthy_or_else, truthy_nonempty_suffix|].
  split; [reflexivity|].
  unfold or_else. split; intros H; rewrite H; reflexivity.
Qed.

Lemma display_name_truthy user : truthy (ProfilePanel.display_name user) = true.
Proof.
  unfold ProfilePanel.display_name.
  apply truthy_or_else, truthy_or_else. reflexivity.
Qed.

(** X8. Every stats object built from a backend answer or from [user], in
    the bootstrap, the profile panel (both branches) and the re-sync
    effect, has a truthy [username]: the chain of [||] ends in the
    non-empty string [ID: ...]. *)
Theorem displayed_name_never_empty :
  (forall data statsData st,
      App.merged_stats data statsData = Ret st ->
      truthy (get_opt st "username") = true)
  /\ (forall user data st,
         ProfilePanel.fetched_stats user data = Ret st ->
         truthy (get_opt st "username") = true)
  /\ (forall user, truthy (get_opt (ProfilePanel.fallback_stats user) "username") = true)
  /\ (forall user data st,
         UserStatsEffect.refreshed_stats user data = Ret st ->
         truthy (get_opt st "username") = true).
Proof.
  split; [|split; [|split]].
  - intros data sd st. unfold App.merged_stats.
    repeat match goal with
           | |- context [match ?x with Ret _ => _ | Throw _ => _ end] => destruct x
           end; intros H; inversion H.
    cbn -[String.append to_string or_else truthy].
    apply truthy_or_else, truthy_or_else. reflexivity.
  - intros user data st. unfold ProfilePanel.fetched_stats.
    destruct (get_prop data "rank"); intros H; inversion H.
    apply display_name_truthy.
  - intros user. apply display_name_truthy.
  - intros user data st. unfold UserStatsEffect.refreshed_stats.
    destruct (get_prop data "rank"); intros H; inversion H.
    apply display_name_truthy.
Qed.

(** *** The re-sync effect *)

Lemma resync_run env s w :
  UserStatsEffect.effect env s w
  = if has_id (App.user s) then
      match network env (requests w) (stats_request env (App.user s)) with
      | Resolve data =>
          match UserStatsEffect.refreshed_stats (App.user s) data with
          | Ret st =>
              (Ret tt, {| App.activeTab := App.activeTab s; App.isLoading := App.isLoading s;
                          App.user := App.user s; App.userStats := st |},
               {| requests := (requests w ++ [stats_request env (App.user s)])%list;
                  console := console w; draws := draws w; clock := clock w;
                  timeouts := timeouts w |})
          | Throw _ =>
              (Ret tt, s,
               {| requests := (requests w ++ [stats_request env (App.user s)])%list;
                  console := (console w ++ [(LError, "Failed to refresh user stats:")])%list;
                  draws := draws w; clock := clock w; timeouts := timeouts w |})
          end
      | Reject =>
          (Ret tt, s,
           {| requests := (requests w ++ [stats_request env (App.user s)])%list;
              console := (console w ++ [(LError, "Failed to refresh user stats:")])%list;
              draws := draws w; clock := clock w; timeouts := timeouts w |})
      end
    else (Ret tt, s, w).
Proof.
  unfold UserStatsEffect.effect, UserStatsEffect.fetchUserStats, has_id, stats_request,
    try_catch, bind, axios, lift, console_out, App.setUserStats, modify.
  destruct (truthy (App.user s) && truthy (get_opt (App.user s) "id")); [|reflexivity].
  destruct (network env (requests w) _) as [data|]; [|reflexivity].
  destruct (UserStatsEffect.refreshed_stats (App.user s) data); reflexivity.
Qed.

Lemma refreshed_stats_object user data st :
  UserStatsEffect.refreshed_stats user data = Ret st -> is_object st.
Proof.
  unfold UserStatsEffect.refreshed_stats. destruct (get_prop data "rank"); intros H;
    inversion H. eexists. reflexivity.
Qed.

(** X9. The re-sync effect never throws and never changes [user], the
    selected tab or [isLoading], so it cannot trigger itself again; it
    sends one rank fetch exactly when [user && user.id] holds, and
    [userStats] afterwards is the old value or an object. *)
Theorem resync_never_touches_user env s w :
  exists s' w',
    UserStatsEffect.effect env s w = (Ret tt, s', w')
    /\ App.user s' = App.user s
    /\ App.activeTab s' = App.activeTab s
    /\ App.isLoading s' = App.isLoading s
    /\ requests w'
       = (requests w
          ++ if has_id (App.user s) then [stats_request env (App.user s)] else [])%list
    /\ (App.userStats s' = App.userStats s \/ is_object (App.userStats s')).
Proof.
  rewrite resync_run. destruct (has_id (App.user s)).
  - destruct (network env (requests w) _) as [data|].
    + destruct (UserStatsEffect.refreshed_stats (App.user s) data) as [st|e] eqn:E.
      * do 2 eexists. split; [reflexivity|]. cbn. repeat split.
        right. eapply refreshed_stats_object; eauto.
      * do 2 eexists. split; [reflexivity|]. cbn. repeat split. auto.
    + do 2 eexists. split; [reflexivity|]. cbn. repeat split. auto.
  - do 2 eexists. split; [reflexivity|]. rewrite app_nil_r. repeat split. auto.
Qed.

(** X10. When the rank fetch of the re-sync effect is rejected, or resolves
    with [null] or [undefined], the state is left exactly as it was and the
    only trace is one error line on the console: no fallback values are
    substituted, unlike in the profile panel. *)
Theorem resync_failure_keeps_stats env s w :
  has_id (App.user s) = true ->
  network env (requests w) (stats_request env (App.user s)) = Reject
  \/ network env (requests w) (stats_request env (App.user s)) = Resolve VNull
  \/ network env (requests w) (stats_request env (App.user s)) = Resolve VUndefined ->
  exists w',
    UserStatsEffect.effect env s w = (Ret tt, s, w')
    /\ console w' = (console w ++ [(LError, "Failed to refresh user stats:")])%list.
Proof.
  intros Hid H. rewrite resync_run, Hid.
  destruct H as [H|[H|H]]; rewrite H; eexists; split; reflexivity.
Qed.

(** X11. Running the re-sync effect a second time, with the backend
    answering the rank fetch as it did the first time, leaves the state the
    first run produced. *)
Theorem resync_idempotent env s w :
  let s1 := state_of (UserStatsEffect.effect env s w) in
  let w1 := world_of (UserStatsEffect.effect env s w) in
  network env (requests w1) (stats_request env (App.user s))
  = network env (requests w) (stats_request env (App.user s)) ->
  state_of (UserStatsEffect.effect env s1 w1) = s1.
Proof.
  cbv zeta. rewrite resync_run. destruct (has_id (App.user s)) eqn:Hid.
  - destruct (network env (requests w) _) as [data|] eqn:Hn.
    + destruct (UserStatsEffect.refreshed_stats (App.user s) data) as [st|e] eqn:E;
        unfold state_of, world_of; cbn [fst snd requests]; intros H;
        rewrite resync_run; cbn [App.user requests]; rewrite Hid, H, E; reflexivity.
    + unfold state_of, world_of; cbn [fst snd requests]; intros H.
      rewrite resync_run. cbn [requests]. rewrite Hid, H. reflexivity.
  - intros _. unfold state_of, world_of. cbn [fst snd]. rewrite resync_run, Hid. reflexivity.
Qed.

(** X12. The local fallback user has an id, so the re-sync effect still
    asks the backend for [/stats/user/demo-user]; an answer with a readable
    [rank] replaces the local stats by the local user's zeros with that
    rank and an undefined avatar, a rejection leaves the stats alone. *)
Theorem resync_after_local_fallback env s w :
  App.user s = App.local_user ->
  exists s' w',
    UserStatsEffect.effect env s w = (Ret tt, s', w')
    /\ requests w' = (requests w ++ [GET (API env ++ "/stats/user/demo-user")])%list
    /\ (forall data r,
           network env (requests w) (GET (API env ++ "/stats/user/demo-user")) = Resolve data ->
           get_prop data "rank" = Ret r ->
           App.userStats s'
           = App.stats_object (VStr "DemoPlayer") VUndefined (VNum 0) (VNum 0) (VNum 0) r)
    /\ (network env (requests w) (GET (API env ++ "/stats/user/demo-user")) = Reject ->
        App.userStats s' = App.userStats s).
Proof.
  intros Hu. rewrite resync_run, Hu.
  change (has_id App.local_user) with true. cbn iota.
  change (stats_request env App.local_user) with (GET (API env ++ "/stats/user/demo-user")).
  destruct (network env (requests w) _) as [data|] eqn:Hn.
  - unfold UserStatsEffect.refreshed_stats.
    destruct (get_prop data "rank") as [r|e] eqn:Hr.
    + do 2 eexists. split; [reflexivity|]. split; [reflexivity|]. split.
      * intros d r' Hd Hr'. inversion Hd; subst. rewrite Hr in Hr'. inversion Hr'; subst.
        reflexivity.
      * discriminate.
    + do 2 eexists. split; [reflexivity|]. split; [reflexivity|]. split.
      * intros d r' Hd Hr'. inversion Hd; subst. congruence.
      * discriminate.
  - do 2 eexists. split; [reflexivity|]. split; [reflexivity|]. split.
    + discriminate.
    + reflexivity.
Qed.

(* ===================================================================== *)
(** ** Further properties of the game panel *)
(* ===================================================================== *)

Lemma final_score_range env k : 1000 <= random_stream env k mod 10000 + 1000 <= 10999.
Proof. pose proof (Z.mod_pos_bound (random_stream env k) 10000). lia. Qed.

(** X13. The score [simulateGameOver] leaves in the state is always within
    1000 and 10999, and when a submission is sent its [score] is that same
    value and its [game_duration] the duration computed from the start time
    of the closure. *)
Theorem final_score_in_range env user start s w :
  match simulateGameOver env user start s w with
  | (_, s', w') =>
      1000 <= score s' <= 10999
      /\ (has_id user = true ->
          requests w'
          = (requests w
             ++ [POST (API env ++ "/scores")
                   (score_body (get_opt user "id") (score s')
                      (gameDuration start (clock w))) []])%list)
  end.
Proof.
  destruct (simulateGameOver_run env user start s w) as (w' & E & Hq & _).
  rewrite E. split; [apply final_score_range|].
  intros Hid. rewrite Hq, Hid. reflexivity.
Qed.

(** X14. The reported duration is 0 when there is no start time or the
    start time is 0; otherwise, for a start time not after now, it is the
    number of whole seconds elapsed: non-negative, and within one second
    below the elapsed milliseconds. *)
Theorem gameDuration_bounds start now :
  (start = None \/ start = Some 0 -> gameDuration start now = 0)
  /\ (forall t, start = Some t -> t <> 0 -> t <= now ->
      0 <= gameDuration start now
      /\ 1000 * gameDuration start now <= now - t < 1000 * gameDuration start now + 1000).
Proof.
  split.
  - intros [H|H]; rewrite H; reflexivity.
  - intros t Hs Ht Hle. rewrite Hs. unfold gameDuration.
    destruct (Z.eqb_spec t 0) as [E|_]; [contradiction|].
    pose proof (Z.div_mod (now - t) 1000 ltac:(lia)) as Hdm.
    pose proof (Z.mod_pos_bound (now - t) 1000 ltac:(lia)) as Hmb.
    split; [apply Z.div_pos; lia|lia].
Qed.

(** *** What a click and a tick can do to the panel state *)

Lemma click_demo_cases env user cls s w :
  click render_demo env user cls s w = (Ret tt, s, w)
  \/ click render_demo env user cls s w = (Ret tt, started w, w)
  \/ (isPlaying s = true
      /\ exists w',
        click render_demo env user cls s w = (Ret tt, over_state env s w, w')
        /\ requests w'
           = (requests w
              ++ if has_id user then [score_request env user (gameStartTime s) w] else [])%list).
Proof.
  unfold click.
  destruct (find _ (rendered_buttons (render_demo s))) as [b|] eqn:Hf; [|auto].
  unfold render_demo, rendered_buttons in Hf.
  destruct (isPlaying s) eqn:Hp, (gameOver s) eqn:Hg; cbn -[String.eqb] in Hf;
    repeat match type of Hf with
           | (if ?c then _ else _) = _ => destruct c
           end;
    try discriminate; inversion Hf; subst b; cbn [handle onClick];
    try (right; left; reflexivity);
    right; right; (split; [reflexivity|]);
    destruct (simulateGameOver_run env user (gameStartTime s) s w) as (w' & E & Hq & _);
    exists w'; split; assumption.
Qed.

Lemma over_state_setScore env s w sc :
  over_state env {| score := sc; gameOver := gameOver s; isPlaying := isPlaying s;
                    gameStartTime := gameStartTime s |} w
  = over_state env s w.
Proof. reflexivity. Qed.

Lemma callback_cases env c body sc s w :
  callback env c body sc s w = (Ret tt, s, w)
  \/ (c_isPlaying c = true /\ includes body "No Space Left" = true
      /\ exists w',
        callback env c body sc s w = (Ret tt, over_state env s w, w')
        /\ requests w'
           = (requests w
              ++ if has_id (c_user c)
                 then [score_request env (c_user c) (c_gameStartTime c) w] else [])%list).
Proof.
  unfold callback.
  destruct (c_isPlaying c); [|auto].
  destruct (includes body "No Space Left"); [|auto].
  right. split; [reflexivity|]. split; [reflexivity|].
  unfold bind, setScore, modify.
  match goal with
  | |- context [simulateGameOver env ?u ?st ?s' ?w'] =>
      destruct (simulateGameOver_run env u st s' w') as (w1 & E & Hq & _)
  end.
  exists w1. rewrite E. split; [reflexivity|exact Hq].
Qed.

(** X15. The score the poll reads from the screen never reaches the state:
    the callback ends in the same state and world whatever that score is,
    and the state is either untouched or carries a final score within 1000
    and 10999. *)
Theorem poll_discards_screen_score env c bodyText screenScore1 screenScore2 s w :
  callback env c bodyText screenScore1 s w = callback env c bodyText screenScore2 s w
  /\ match callback env c bodyText screenScore1 s w with
     | (_, s', _) => s' = s \/ 1000 <= score s' <= 10999
     end.
Proof.
  split.
  - unfold callback. destruct (c_isPlaying c); [|reflexivity].
    destruct (includes bodyText "No Space Left"); reflexivity.
  - destruct (callback_cases env c bodyText screenScore1 s w) as [E|(_ & _ & w' & E & _)];
      rewrite E; [left; reflexivity|right; apply final_score_range].
Qed.

(** *** Invariant of the session state *)

Lemma started_ok w : session_ok (started w).
Proof. unfold session_ok. cbn. split; [reflexivity|eauto]. Qed.

Lemma over_state_ok env s w : session_ok (over_state env s w).
Proof. unfold session_ok. cbn. split; [reflexivity|apply final_score_range]. Qed.

Lemma commit_state m s w pg :
  exists m', panel (commit m s w pg) = Some m' /\ state m' = s
             /\ props_user m' = props_user m.
Proof.
  unfold commit. destruct (deps_eqb _ _); cbn; eexists; repeat split.
Qed.

Lemma commit_world m s w pg : world (commit m s w pg) = w.
Proof. unfold commit. destruct (deps_eqb _ _); reflexivity. Qed.

Lemma step_page_ok env e pg : page_ok pg -> page_ok (step env e pg).
Proof.
  unfold page_ok. intros H.
  destruct e as [user| |user|cls|id body sc|ms]; unfold step.
  - destruct (panel pg) as [m|] eqn:Hm; [rewrite Hm; exact H|]. cbn. reflexivity.
  - destruct (panel pg) as [m|] eqn:Hm; [|rewrite Hm; exact H]. cbn. exact I.
  - destruct (panel pg) as [m|] eqn:Hm; [|rewrite Hm; exact H]. cbn. exact H.
  - destruct (panel pg) as [m|] eqn:Hm; [|rewrite Hm; exact H].
    destruct (click_demo_cases env (props_user m) cls (state m) (world pg))
      as [E|[E|(_ & w' & E & _)]]; rewrite E;
      match goal with
      | |- context [commit ?m ?s ?w ?p] =>
          destruct (commit_state m s w p) as (m' & Hp & Hs & _); rewrite Hp, Hs
      end;
      [exact H|apply started_ok|apply over_state_ok].
  - destruct (lookup_interval id (intervals pg)) as [c|].
    2:{ destruct (panel pg); exact H. }
    destruct (panel pg) as [m|] eqn:Hm.
    + destruct (callback_cases env c body sc (state m) (world pg))
        as [E|(_ & _ & w' & E & _)]; rewrite E;
        match goal with
        | |- context [commit ?m ?s ?w ?p] =>
            destruct (commit_state m s w p) as (m' & Hp & Hs & _); rewrite Hp, Hs
        end;
        [exact H|apply over_state_ok].
    + destruct (callback env c body sc initial (world pg)) as [[r s] w]. cbn. exact I.
  - cbn. destruct (panel pg); exact H.
Qed.

(** X16. Along any sequence of events of the demo page the panel state
    keeps its shape: in [Idle] it is the initial state, in [Playing] the
    score is 0 and a start time is recorded, in [Over] [isPlaying] is false
    and the score lies within 1000 and 10999; [isPlaying] and [gameOver]
    are never both true. *)
Theorem session_invariant env now events :
  page_ok (run env events (page0 now))
  /\ (forall m, panel (run env events (page0 now)) = Some m ->
      isPlaying (state m) && gameOver (state m) = false).
Proof.
  assert (G : forall pg, page_ok pg -> page_ok (run env events pg)).
  { induction events as [|e events IH]; intros pg H; [exact H|].
    cbn. apply IH. apply step_page_ok. exact H. }
  assert (H : page_ok (run env events (page0 now))) by (apply G; exact I).
  split; [exact H|].
  intros m Hm. unfold page_ok in H. rewrite Hm in H. unfold session_ok, phase in H.
  destruct (gameOver (state m)); [|apply andb_false_r].
  destruct H as [Hp _]. rewrite Hp. reflexivity.
Qed.

(** *** Submissions *)

Lemma score_request_is_submission env user start w :
  has_id user = true -> is_score_submission env (score_request env user start w).
Proof.
  intros H. unfold is_score_submission, score_request.
  do 3 eexists. split; [reflexivity|]. split.
  - unfold has_id in H. apply andb_prop in H. apply H.
  - apply final_score_range.
Qed.

Lemma step_submission env e pg :
  poll_inv pg ->
  exists extra,
    requests (world (step env e pg)) = (requests (world pg) ++ extra)%list
    /\ (List.length extra <= 1)%nat
    /\ Forall (is_score_submission env) extra
    /\ (extra <> [] -> playing pg = true /\ playing (step env e pg) = false).
Proof.
  intros Hinv.
  assert (Nil : forall p, requests (world p) = requests (world pg) ->
            exists extra,
              requests (world p) = (requests (world pg) ++ extra)%list
              /\ (List.length extra <= 1)%nat
              /\ Forall (is_score_submission env) extra
              /\ (extra <> [] -> playing pg = true /\ playing p = false)).
  { intros p Hp. exists []. rewrite app_nil_r. repeat split; auto; congruence. }
  assert (One : forall p user start,
            playing pg = true -> playing p = false ->
            requests (world p)
            = (requests (world pg)
               ++ if has_id user then [score_request env user start (world pg)] else [])%list ->
            exists extra,
              requests (world p) = (requests (world pg) ++ extra)%list
              /\ (List.length extra <= 1)%nat
              /\ Forall (is_score_submission env) extra
              /\ (extra <> [] -> playing pg = true /\ playing p = false)).
  { intros p user start P1 P2 Hq. eexists. split; [exact Hq|].
    destruct (has_id user) eqn:Hid; cbn.
    - split; [lia|]. split; [|auto].
      constructor; [apply score_request_is_submission; exact Hid|constructor].
    - split; [lia|]. split; [constructor|auto]. }
  destruct e as [user| |user|cls|id body sc|ms]; unfold step.
  - destruct (panel pg); apply Nil; reflexivity.
  - destruct (panel pg); apply Nil; reflexivity.
  - destruct (panel pg); apply Nil; reflexivity.
  - destruct (panel pg) as [m|] eqn:Hm; [|apply Nil; reflexivity].
    destruct (click_demo_cases env (props_user m) cls (state m) (world pg))
      as [E|[E|(Hp & w' & E & Hq)]]; rewrite E.
    + apply Nil. rewrite commit_world. reflexivity.
    + apply Nil. rewrite commit_world. reflexivity.
    + apply (One _ (props_user m) (gameStartTime (state m))).
      * unfold playing. rewrite Hm. exact Hp.
      * unfold playing.
        match goal with
        | |- context [commit ?m ?s ?w ?p] =>
            destruct (commit_state m s w p) as (m' & Hp' & Hs & _); rewrite Hp', Hs
        end. reflexivity.
      * rewrite commit_world. exact Hq.
  - destruct (lookup_interval id (intervals pg)) as [c|] eqn:Hl; [|apply Nil; reflexivity].
    unfold poll_inv in Hinv.
    destruct (panel pg) as [m|] eqn:Hm.
    + destruct Hinv as (_ & _ & c' & Hi & Hc).
      rewrite Hi in Hl. cbn in Hl. destruct (Nat.eqb _ id); [|discriminate].
      inversion Hl; subst c'.
      destruct (callback_cases env c body sc (state m) (world pg))
        as [E|(Hp & _ & w' & E & Hq)]; rewrite E.
      * apply Nil. rewrite commit_world. reflexivity.
      * apply (One _ (c_user c) (c_gameStartTime c)).
        -- unfold playing. rewrite Hm, <- Hc. exact Hp.
        -- unfold playing.
           match goal with
           | |- context [commit ?m ?s ?w ?p] =>
               destruct (commit_state m s w p) as (m' & Hp' & Hs & _); rewrite Hp', Hs
           end. reflexivity.
        -- rewrite commit_world. exact Hq.
    + rewrite Hinv in Hl. discriminate.
  - apply Nil. reflexivity.
Qed.

Lemma reachable_inv env pg : reachable env pg -> poll_inv pg.
Proof. intros (now & events & ->). apply run_inv, page0_inv. Qed.

(** X17. On a reachable page one event adds at most one request, always a
    score submission, and only when it takes the panel out of [Playing]:
    the button and the poll cannot both submit for one session. *)
Theorem one_submission_per_session_end env pg e :
  reachable env pg ->
  exists extra,
    requests (world (step env e pg)) = (requests (world pg) ++ extra)%list
    /\ (List.length extra <= 1)%nat
    /\ Forall (is_score_submission env) extra
    /\ (extra <> [] -> playing pg = true /\ playing (step env e pg) = false).
Proof. intros H. apply step_submission. apply (reachable_inv env). exact H. Qed.

(** X18. Every request the game panel ever sends is a score submission to
    [/scores] with a truthy [user_id] and a score within 1000 and 10999. *)
Theorem only_score_submissions env now events :
  Forall (is_score_submission env) (requests (world (run env events (page0 now)))).
Proof.
  assert (G : forall pg, poll_inv pg ->
                         Forall (is_score_submission env) (requests (world pg)) ->
                         Forall (is_score_submission env)
                           (requests (world (run env events pg)))).
  { induction events as [|e events IH]; intros pg Hinv H; [exact H|].
    cbn. apply IH; [apply step_inv; exact Hinv|].
    destruct (step_submission env e pg Hinv) as (extra & Hq & _ & Hf & _).
    rewrite Hq. apply Forall_app. split; assumption. }
  apply G; [apply page0_inv|constructor].
Qed.

(** X19. A session of a user with an id, started at a time other than 0 and
    ended by the button [ms] milliseconds later, sends exactly one
    submission, whose [game_duration] is the whole seconds of [ms] and
    whose score is the score left on screen. *)
Theorem session_reports_duration env user now idle ms :
  has_id user = true ->
  now + Z.max 0 idle <> 0 ->
  let pg := run env [EMount user; EElapse idle; EClick "start-button";
                     EElapse ms; EClick "end-game-button"] (page0 now) in
  requests (world pg)
  = [POST (API env ++ "/scores")
       (score_body (get_opt user "id") (random_stream env 0 mod 10000 + 1000)
          (Z.max 0 ms / 1000)) []]
  /\ option_map state (panel pg)
     = Some {| score := random_stream env 0 mod 10000 + 1000; gameOver := true;
               isPlaying := false; gameStartTime := Some (now + Z.max 0 idle) |}.
Proof.
  intros Hid Ht pg. subst pg. unfold has_id in Hid.
  unfold run. cbn -[String.append Z.add Z.max Z.div Z.modulo Z.sub API truthy get_opt].
  unfold commit, click, simulateGameOver, bind, setGameOver, setIsPlaying, setScore,
    modify, random_below, Date_now, try_catch, axios, console_out, ret, gameDuration.
  cbn -[String.append Z.add Z.max Z.div Z.modulo Z.sub API truthy get_opt Z.eqb].
  rewrite Hid. apply Z.eqb_neq in Ht. rewrite Ht.
  replace (now + Z.max 0 idle + Z.max 0 ms - (now + Z.max 0 idle)) with (Z.max 0 ms) by lia.
  match goal with
  | |- context [network env ?h ?r] => destruct (network env h r)
  end; cbn; split; reflexivity.
Qed.


(** X20. While the game is [Playing], a tick of the active interval reads
    the body text once; without the marker nothing else changes, with the
    marker the panel leaves [Playing] and is in [Over]. *)
Theorem tick_while_playing env pg id bodyText screenScore :
  reachable env pg -> playing pg = true -> active id pg = true ->
  (includes bodyText "No Space Left" = false ->
   step env (ETick id bodyText screenScore) pg = with_inspection pg)
  /\ (includes bodyText "No Space Left" = true ->
      playing (step env (ETick id bodyText screenScore) pg) = false
      /\ inspections (step env (ETick id bodyText screenScore) pg) = S (inspections pg)
      /\ exists m', panel (step env (ETick id bodyText screenScore) pg) = Some m'
                    /\ phase (state m') = Over).
Proof.
  intros Hr Hp Ha. apply reachable_inv in Hr.
  unfold poll_inv, playing, active in *.
  destruct pg as [[[u st d iv]|] ivs nxt insp w]; cbn in *; [|discriminate].
  destruct Hr as (Hd & _ & c & Hi & Hc). subst ivs d. cbn in Ha.
  rewrite orb_false_r in Ha. unfold step. cbn. rewrite Ha.
  rewrite Hp in Hc. rewrite Hc. unfold callback. rewrite Hc. split; intros Hm; rewrite Hm.
  - unfold commit, ret. cbn. rewrite deps_eqb_refl. reflexivity.
  - unfold bind, setScore, modify.
    match goal with
    | |- context [simulateGameOver env ?a ?b ?s' ?w'] =>
        destruct (simulateGameOver_run env a b s' w') as (w1 & E & _)
    end.
    rewrite E.
    match goal with
    | |- context [commit ?m ?s ?w ?p] =>
        destruct (commit_state m s w p) as (m' & Hp' & Hs & _)
    end.
    rewrite Hp', Hs. split; [reflexivity|]. split.
    + unfold commit. destruct (deps_eqb _ _); reflexivity.
    + exists m'. rewrite Hs. split; reflexivity.
Qed.

(** X21. The effect of the poll does not depend on [user]: after the parent
    passes a new [user], a session ended by the poll is still submitted
    for the user the panel had when the session started, while the button
    submits for the new one. *)
Theorem poll_uses_stale_user env now user user' bodyText screenScore :
  includes bodyText "No Space Left" = true ->
  requests (world (run env [EMount user; EClick "start-button"; EProps user';
                            ETick 2 bodyText screenScore] (page0 now)))
  = (if has_id user then [score_request env user (Some now) (world0 now)] else [])
  /\ requests (world (run env [EMount user; EClick "start-button"; EProps user';
                               EClick "end-game-button"] (page0 now)))
     = (if has_id user' then [score_request env user' (Some now) (world0 now)] else []).
Proof.
  intros Hm. unfold run. cbn -[includes simulateGameOver].
  unfold commit. cbn -[includes simulateGameOver]. unfold callback, click.
  cbn -[includes simulateGameOver]. rewrite Hm. unfold bind, setScore, modify.
  split.
  - match goal with
    | |- context [simulateGameOver env ?a ?b ?s' ?w'] =>
        destruct (simulateGameOver_run env a b s' w') as (w1 & E & Hq & _)
    end.
    rewrite E. cbn. exact Hq.
  - match goal with
    | |- context [simulateGameOver env ?a ?b ?s' ?w'] =>
        destruct (simulateGameOver_run env a b s' w') as (w1 & E & Hq & _)
    end.
    rewrite E. cbn. exact Hq.
Qed.

(* ===================================================================== *)
(** ** Further properties of the panels, the router and the overlay *)
(* ===================================================================== *)

Lemma render_row_fields leader r :
  LeaderboardPanel.render_row leader = Ret r -> r = row_of leader.
Proof.
  unfold LeaderboardPanel.render_row, row_of.
  destruct leader; cbn; try discriminate;
    try (intros H; inversion H; reflexivity).
  destruct (get_prop (assoc "best_score" fields) "toLocaleString");
    intros H; inversion H; reflexivity.
Qed.

Lemma render_rows_fields l rows :
  LeaderboardPanel.render_rows l = Ret rows -> rows = map row_of l.
Proof.
  revert rows. induction l as [|x l IH]; intros rows; cbn.
  - intros H. inversion H. reflexivity.
  - destruct (LeaderboardPanel.render_row x) as [r|e] eqn:Hr; [|discriminate].
    destruct (LeaderboardPanel.render_rows l) as [rs|e]; [|discriminate].
    intros H. inversion H. apply render_row_fields in Hr. rewrite Hr, (IH rs eq_refl).
    reflexivity.
Qed.

(** X22. When the leaderboard renders a list, the rows are the fields of
    the first 50 entries of the stored array, in order; entries after the
    50th have no influence on what is rendered. *)
Theorem leaders_render_first_50 s rows :
  LeaderboardPanel.render s = Ret (LeaderboardPanel.LeadersList rows) ->
  exists items,
    LeaderboardPanel.leaders s = VArr items
    /\ rows = map row_of (firstn 50 items)
    /\ List.length rows = Nat.min 50 (List.length items)
    /\ (forall more,
           (50 <= List.length items)%nat ->
           LeaderboardPanel.render (shown (VArr (items ++ more)))
           = LeaderboardPanel.render (shown (VArr items))).
Proof.
  unfold LeaderboardPanel.render.
  destruct (LeaderboardPanel.loading s); [discriminate|].
  destruct (LeaderboardPanel.leaders s) as [| | | | |items|]; try discriminate.
  destruct (LeaderboardPanel.render_rows (firstn 50 items)) as [rs|e] eqn:Hr; [|discriminate].
  intros H. inversion H; subst rs. exists items. apply render_rows_fields in Hr.
  split; [reflexivity|]. split; [exact Hr|]. split.
  - rewrite Hr, length_map, length_firstn. reflexivity.
  - intros more Hlen. unfold shown. cbn [LeaderboardPanel.loading LeaderboardPanel.leaders].
    rewrite firstn_app.
    replace (50 - List.length items)%nat with 0%nat by lia.
    cbn [firstn]. rewrite app_nil_r. reflexivity.
Qed.

(** X23. A resolved leaderboard fetch stores the answer as it is, without
    validation and without falling back to the mock data: an empty array
    renders an empty list, and an answer that is not an array makes the
    render throw. *)
Theorem leaders_success_stores_data env s w data :
  network env (requests w) (leaderboard_request env) = Resolve data ->
  exists w',
    LeaderboardPanel.fetchLeaders env s w = (Ret tt, shown data, w')
    /\ requests w' = (requests w ++ [leaderboard_request env])%list
    /\ console w' = console w
    /\ (not_an_array data -> exists e, LeaderboardPanel.render (shown data) = Throw e)
    /\ (data = VArr [] ->
        LeaderboardPanel.render (shown data) = Ret (LeaderboardPanel.LeadersList [])).
Proof.
  intros Hn.
  unfold LeaderboardPanel.fetchLeaders, try_finally, try_catch, bind, axios,
    LeaderboardPanel.setLeaders, LeaderboardPanel.setLoading, modify.
  unfold leaderboard_request in *. rewrite Hn. cbn.
  eexists. split; [reflexivity|]. cbn. split; [reflexivity|]. split; [reflexivity|].
  split.
  - unfold LeaderboardPanel.render. cbn.
    destruct data; cbn; intros H; try contradiction; eexists; reflexivity.
  - intros ->. reflexivity.
Qed.

(** X24. When [user] is missing or has no id, the profile panel sends no
    request and writes nothing to the console: it keeps its stats and only
    clears [loading]. *)
Theorem profile_without_user env user s w :
  has_id user = false ->
  ProfilePanel.fetchUserStats env user s w
  = (Ret tt, {| ProfilePanel.userStats := ProfilePanel.userStats s;
                ProfilePanel.loading := false |}, w).
Proof.
  intros H. unfold ProfilePanel.fetchUserStats, bind, ret, ProfilePanel.setLoading, modify.
  unfold has_id in H. rewrite H. reflexivity.
Qed.

(** X25. When the rank fetch of the profile panel resolves with a readable
    [rank], the stats are the user's own fields as they are (no default)
    with that rank; when it resolves with [null] or [undefined] the panel
    behaves as on a rejection: fallback stats and an error line. *)
Theorem profile_success_and_malformed env user s w data :
  has_id user = true ->
  network env (requests w) (stats_request env user) = Resolve data ->
  (forall r,
      get_prop data "rank" = Ret r ->
      exists w',
        ProfilePanel.fetchUserStats env user s w
        = (Ret tt,
           {| ProfilePanel.userStats :=
                ProfilePanel.stats_object (ProfilePanel.display_name user)
                  (get_opt user "photo_url") (get_opt user "best_score")
                  (get_opt user "games_played") (get_opt user "total_score") r;
              ProfilePanel.loading := false |}, w')
        /\ console w' = console w)
  /\ (data = VNull \/ data = VUndefined ->
      exists w',
        ProfilePanel.fetchUserStats env user s w
        = (Ret tt, {| ProfilePanel.userStats := ProfilePanel.fallback_stats user;
                      ProfilePanel.loading := false |}, w')
        /\ console w' = (console w ++ [(LError, "Failed to fetch user stats:")])%list).
Proof.
  intros Hid Hn. unfold has_id in Hid. unfold stats_request in Hn.
  unfold ProfilePanel.fetchUserStats, try_catch, bind, axios, lift, ret, console_out,
    ProfilePanel.setUserStats, ProfilePanel.setLoading, modify, ProfilePanel.fetched_stats.
  rewrite Hid, Hn. split.
  - intros r Hr. rewrite Hr. eexists. split; reflexivity.
  - intros [H|H]; rewrite H; eexists; split; reflexivity.
Qed.

(** *** Tab router *)

Lemma not_tab_id i :
  ~ In i tab_ids ->
  ("duels" =? i)%string = false /\ ("leaders" =? i)%string = false
  /\ ("game" =? i)%string = false /\ ("shop" =? i)%string = false
  /\ ("profile" =? i)%string = false.
Proof.
  intros H. repeat split; apply String.eqb_neq; intros E; apply H; rewrite <- E;
    cbn; auto 10.
Qed.

(** X26. For an id that is not one of the five tabs, the active component
    is the game panel, no nav button is drawn as active, and no click can
    select it. *)
Theorem unknown_tab_falls_back i s w :
  ~ In i tab_ids ->
  App.ActiveComponent i = App.BlockBlastGame
  /\ App.select i s w = (Ret tt, s, w)
  /\ App.panels (App.render (on_tab i (loading_done s))) = [App.BlockBlastGame]
  /\ active_nav (App.render (on_tab i (loading_done s))) = [].
Proof.
  intros H. pose proof (not_tab_id i H) as (H1 & H2 & H3 & H4 & H5).
  assert (Hex : existsb (String.eqb i) tab_ids = false).
  { cbn -[String.eqb]. rewrite !(String.eqb_sym i), H1, H2, H3, H4, H5. reflexivity. }
  split; [|split; [|split]].
  - unfold App.ActiveComponent. cbn -[String.eqb]. rewrite H1, H2, H3, H4, H5. reflexivity.
  - rewrite select_run, Hex, andb_false_r. reflexivity.
  - unfold App.render, App.ActiveComponent. cbn -[String.eqb].
    rewrite H1, H2, H3, H4, H5. reflexivity.
  - unfold App.render, active_nav. cbn -[String.eqb].
    rewrite !(String.eqb_sym i), H1, H2, H3, H4, H5. reflexivity.
Qed.

(** X27. Once loading is over, with one of the five tabs selected, exactly
    one nav button is drawn as active, the one of the selected tab, and
    [<main>] holds the component of that tab. *)
Theorem one_nav_button_active s :
  In (App.activeTab s) tab_ids -> App.isLoading s = false ->
  active_nav (App.render s) = [App.activeTab s]
  /\ App.panels (App.render s) = [App.ActiveComponent (App.activeTab s)].
Proof.
  intros Hi Hl. unfold App.render. rewrite Hl. apply tab_id_cases in Hi.
  destruct Hi as [E | [E | [E | [E | E]]]]; rewrite E; split; reflexivity.
Qed.

(** X28. Selecting a tab other than the current one unmounts the panel of
    the current tab and mounts the panel of the selected one, and nothing
    else. *)
Theorem switching_tabs_replaces_panel i s :
  In i tab_ids -> In (App.activeTab s) tab_ids -> i <> App.activeTab s ->
  App.isLoading s = false ->
  App.reconcile (App.render s) (App.render (after_select i s))
  = [App.Unmounts (App.ActiveComponent (App.activeTab s));
     App.Mounts (App.ActiveComponent i)].
Proof.
  intros Hi Hs Hne Hl.
  assert (Hex : existsb (String.eqb i) tab_ids = true).
  { apply existsb_exists. exists i. split; [exact Hi|apply String.eqb_refl]. }
  unfold after_select. rewrite select_run, Hl, Hex. cbn [negb andb].
  unfold App.render. cbn [App.isLoading App.activeTab]. rewrite Hl. cbn [App.panels App.reconcile].
  apply tab_id_cases in Hi. apply tab_id_cases in Hs.
  destruct Hi as [Ei | [Ei | [Ei | [Ei | Ei]]]];
    destruct Hs as [Es | [Es | [Es | [Es | Es]]]];
    rewrite Ei, Es in *; try (exfalso; apply Hne; reflexivity); reflexivity.
Qed.

(** *** Overlay after the bootstrap *)

Lemma bootstrap_local_when_down env tg s0 w0 :
  all_rejected env ->
  exists s w,
    App.initializeApp env tg s0 w0 = (Ret tt, s, w)
    /\ App.user s = App.local_user /\ App.userStats s = App.local_stats.
Proof.
  intros Hall.
  assert (D : forall s1 w1, exists s' w',
               App.createDemoUser env s1 w1 = (Ret tt, s', w')
               /\ App.user s' = App.local_user /\ App.userStats s' = App.local_stats).
  { intros s1 w1. destruct (createDemoUser_spec env s1 w1) as (s' & w' & E & _ & _ & Hl).
    exists s', w'. split; [exact E|]. apply Hl, Hall. }
  unfold App.initializeApp, try_finally, try_catch, bind, host_call, lift,
    console_out, setTimeout, ret, axios.
  repeat match goal with
         | |- context [network env ?h ?r] => rewrite (Hall h r)
         end.
  destruct tg as [t|]; cbn -[App.createDemoUser].
  2:{ match goal with
      | |- context [App.createDemoUser env ?s ?w] =>
          destruct (D s w) as (s' & w' & E & Hu & Hs); rewrite E
      end. do 2 eexists. split; [reflexivity|]. split; assumption. }
  destruct (truthy (get_opt (initDataUnsafe t) "user")); cbn -[App.createDemoUser];
    [destruct (ready_returns t); cbn -[App.createDemoUser];
     [destruct (expand_returns t); cbn -[App.createDemoUser];
      [destruct (get_prop (initDataUnsafe t) "user") as [tu|e]; cbn -[App.createDemoUser];
       [rewrite Hall; cbn -[App.createDemoUser]|]|]|]|];
    match goal with
    | |- context [App.createDemoUser env ?s ?w] =>
        destruct (D s w) as (s' & w' & E & Hu & Hs); rewrite E
    end; do 2 eexists; (split; [reflexivity|]); split; assumption.
Qed.

(** X29. After a bootstrap during which every request was rejected, the
    rank overlay is hidden on every tab, although [user] is present with an
    id: the local stats carry the rank 0. *)
Theorem overlay_hidden_after_local_fallback env tg s0 w0 tab :
  all_rejected env ->
  match App.initializeApp env tg s0 w0 with
  | (_, s, _) =>
      overlay_of (App.render (on_tab tab (loading_done s))) = None
      /\ has_id (App.user s) = true
  end.
Proof.
  intros Hall.
  destruct (bootstrap_local_when_down env tg s0 w0 Hall) as (s & w & E & Hu & Hs).
  rewrite E. unfold App.render, on_tab, loading_done, overlay_of.
  cbn [App.isLoading App.activeTab App.user App.userStats]. rewrite Hu, Hs.
  split; reflexivity.
Qed.

(* ===================================================================== *)
(** ** Concrete runs of the further properties *)
(* ===================================================================== *)

Lemma unusable_host_goes_demo_witness :
  exists s w rest n,
    App.initializeApp env_down None App.initial (world0 0) = (Ret tt, s, w)
    /\ requests w
       = (requests (world0 0)
            ++ POST (API env_down ++ "/users") (App.demoUser n) [] :: rest)%list
    /\ 0 <= n < 1000000000
    /\ one_rank_fetch_at_most env_down rest.
Proof. exact (unusable_host_goes_demo env_down None App.initial (world0 0) eq_refl). Defined.

Lemma real_path_success_witness :
  exists w,
    App.initializeApp (scenario_env wire_user_record) (Some alice_host) App.initial (world0 0)
    = (Ret tt, {| App.activeTab := "game"; App.isLoading := true;
                  App.user := wire_user_record;
                  App.userStats := App.userStats alice_state |}, w)
    /\ requests w
       = (requests (world0 0)
            ++ [real_request (scenario_env wire_user_record) alice_host alice;
                rank_request (scenario_env wire_user_record) (VStr "u1")])%list
    /\ draws w = draws (world0 0).
Proof.
  exact (real_path_success (scenario_env wire_user_record) alice_host alice
           App.initial (world0 0) eq_refl eq_refl eq_refl eq_refl
           wire_user_record (VStr "u1") (VObj [("rank", VNum 7)])
           (App.userStats alice_state) eq_refl eq_refl eq_refl eq_refl).
Defined.



Lemma userData_username_never_empty_witness :
  get_opt (App.userData alice) "username" = VStr "alice"
  /\ get_opt (App.userData nameless) "username" = VStr "Al_42".
Proof.
  split.
  - apply (proj1 (proj2 (proj2 (userData_username_never_empty alice)))). reflexivity.
  - apply (proj2 (proj2 (proj2 (userData_username_never_empty nameless)))). reflexivity.
Defined.

Lemma displayed_name_never_empty_witness :
  truthy (get_opt (App.userStats alice_state) "username") = true.
Proof.
  apply (proj1 displayed_name_never_empty wire_user_record (VObj [("rank", VNum 7)])).
  reflexivity.
Defined.

Lemma resync_failure_keeps_stats_witness :
  exists w',
    UserStatsEffect.effect env_down alice_state (world0 0) = (Ret tt, alice_state, w')
    /\ console w' = (console (world0 0) ++ [(LError, "Failed to refresh user stats:")])%list.
Proof.
  exact (resync_failure_keeps_stats env_down alice_state (world0 0) eq_refl
           (or_introl eq_refl)).
Defined.

Lemma resync_idempotent_witness :
  state_of (UserStatsEffect.effect (scenario_env wire_user_record)
              (state_of (UserStatsEffect.effect (scenario_env wire_user_record)
                           local_state (world0 0)))
              (world_of (UserStatsEffect.effect (scenario_env wire_user_record)
                           local_state (world0 0))))
  = state_of (UserStatsEffect.effect (scenario_env wire_user_record) local_state (world0 0)).
Proof.
  exact (resync_idempotent (scenario_env wire_user_record) local_state (world0 0) eq_refl).
Defined.

Lemma resync_after_local_fallback_witness :
  exists s' w',
    UserStatsEffect.effect (scenario_env wire_user_record) local_state (world0 0)
    = (Ret tt, s', w')
    /\ App.userStats s'
       = App.stats_object (VStr "DemoPlayer") VUndefined (VNum 0) (VNum 0) (VNum 0) (VNum 7).
Proof.
  destruct (resync_after_local_fallback (scenario_env wire_user_record) local_state
              (world0 0) eq_refl) as (s' & w' & E & _ & Hok & _).
  exists s', w'. split; [exact E|].
  apply (Hok (VObj [("rank", VNum 7)]) (VNum 7)); reflexivity.
Defined.

Lemma final_score_in_range_witness :
  List.length
    (requests (world_of (simulateGameOver env_up user_u1 (Some 1000) playing_state
                           (world0 61000))))
  = 1%nat.
Proof.
  pose proof (final_score_in_range env_up user_u1 (Some 1000) playing_state (world0 61000))
    as H.
  destruct (simulateGameOver env_up user_u1 (Some 1000) playing_state (world0 61000))
    as [[r s'] w'].
  destruct H as (_ & H). unfold world_of. cbn [snd]. rewrite (H eq_refl). reflexivity.
Defined.

Lemma gameDuration_bounds_witness :
  0 <= gameDuration (Some 1000) 61500
  /\ 1000 * gameDuration (Some 1000) 61500 <= 61500 - 1000
     < 1000 * gameDuration (Some 1000) 61500 + 1000.
Proof.
  apply (proj2 (gameDuration_bounds (Some 1000) 61500) 1000); [reflexivity|lia|lia].
Defined.

Lemma session_invariant_witness :
  exists m,
    panel playing_page = Some m
    /\ isPlaying (state m) && gameOver (state m) = false.
Proof.
  eexists. split; [reflexivity|].
  apply (proj2 (session_invariant env_up 1000 [EMount user_u1; EClick "start-button"])).
  reflexivity.
Defined.

Lemma playing_page_reachable : reachable env_up playing_page.
Proof. exists 1000, [EMount user_u1; EClick "start-button"]. reflexivity. Qed.

Lemma one_submission_per_session_end_witness :
  exists extra,
    requests (world (step env_up (EClick "end-game-button") playing_page))
    = (requests (world playing_page) ++ extra)%list
    /\ (List.length extra <= 1)%nat
    /\ Forall (is_score_submission env_up) extra
    /\ (extra <> [] ->
        playing playing_page = true
        /\ playing (step env_up (EClick "end-game-button") playing_page) = false).
Proof.
  exact (one_submission_per_session_end env_up playing_page (EClick "end-game-button")
           playing_page_reachable).
Defined.

Lemma session_reports_duration_witness :
  requests (world (run env_up [EMount user_u1; EElapse 0; EClick "start-button";
                               EElapse 60500; EClick "end-game-button"] (page0 1000)))
  = [POST (API env_up ++ "/scores")
       (score_body (VStr "u1") (4321 + 1000) 60) []].
Proof.
  apply (session_reports_duration env_up user_u1 1000 0 60500); [reflexivity|discriminate].
Defined.

Lemma tick_while_playing_witness :
  step env_up (ETick 2 "Score 0" 0) playing_page = with_inspection playing_page
  /\ playing (step env_up (ETick 2 "Score 1,200 No Space Left" 1200) playing_page) = false.
Proof.
  split.
  - apply (proj1 (tick_while_playing env_up playing_page 2 "Score 0" 0
                    playing_page_reachable eq_refl eq_refl)).
    reflexivity.
  - apply (proj2 (tick_while_playing env_up playing_page 2 "Score 1,200 No Space Left" 1200
                    playing_page_reachable eq_refl eq_refl)).
    reflexivity.
Defined.

Lemma poll_uses_stale_user_witness :
  requests (world (run env_up [EMount user_u1; EClick "start-button";
                               EProps user_without_id;
                               ETick 2 "No Space Left" 0] (page0 1000)))
  = [score_request env_up user_u1 (Some 1000) (world0 1000)]
  /\ requests (world (run env_up [EMount user_u1; EClick "start-button";
                                  EProps user_without_id;
                                  EClick "end-game-button"] (page0 1000)))
     = [].
Proof.
  exact (poll_uses_stale_user env_up 1000 user_u1 user_without_id "No Space Left" 0 eq_refl).
Defined.

Lemma leaders_render_first_50_witness :
  exists items,
    LeaderboardPanel.leaders mock_shown = VArr items
    /\ List.length items = 5%nat.
Proof.
  destruct (leaders_render_first_50 mock_shown
              (map row_of match LeaderboardPanel.mock_leaders with
                          | VArr items => items
                          | _ => []
                          end) eq_refl)
    as (items & Hl & _).
  exists items. split; [exact Hl|].
  inversion Hl. reflexivity.
Defined.

Lemma leaders_success_stores_data_witness :
  exists w',
    LeaderboardPanel.fetchLeaders env_up LeaderboardPanel.initial (world0 0)
    = (Ret tt, shown (VObj []), w')
    /\ exists e, LeaderboardPanel.render (shown (VObj [])) = Throw e.
Proof.
  destruct (leaders_success_stores_data env_up LeaderboardPanel.initial (world0 0)
              (VObj []) eq_refl) as (w' & E & _ & _ & Hthrow & _).
  exists w'. split; [exact E|]. apply Hthrow. exact I.
Defined.

Lemma profile_without_user_witness :
  ProfilePanel.fetchUserStats env_up VNull ProfilePanel.initial (world0 0)
  = (Ret tt, {| ProfilePanel.userStats := ProfilePanel.userStats ProfilePanel.initial;
                ProfilePanel.loading := false |}, world0 0).
Proof.
  exact (profile_without_user env_up VNull ProfilePanel.initial (world0 0) eq_refl).
Defined.

Lemma profile_success_and_malformed_witness :
  (exists w',
      ProfilePanel.fetchUserStats (scenario_env wire_user_record) wire_user_record
        ProfilePanel.initial (world0 0)
      = (Ret tt, {| ProfilePanel.userStats := App.userStats alice_state;
                    ProfilePanel.loading := false |}, w'))
  /\ (exists w',
         ProfilePanel.fetchUserStats env_null wire_user_record ProfilePanel.initial (world0 0)
         = (Ret tt, {| ProfilePanel.userStats := ProfilePanel.fallback_stats wire_user_record;
                       ProfilePanel.loading := false |}, w')).
Proof.
  split.
  - destruct (proj1 (profile_success_and_malformed (scenario_env wire_user_record)
                       wire_user_record ProfilePanel.initial (world0 0)
                       (VObj [("rank", VNum 7)]) eq_refl eq_refl) (VNum 7) eq_refl)
      as (w' & E & _).
    exists w'. exact E.
  - destruct (proj2 (profile_success_and_malformed env_null
                       wire_user_record ProfilePanel.initial (world0 0)
                       VNull eq_refl eq_refl) (or_introl eq_refl))
      as (w' & E & _).
    exists w'. exact E.
Defined.

Lemma settings_is_no_tab : ~ In "settings" tab_ids.
Proof. cbn. intros H. repeat (destruct H as [H|H]; [discriminate|]). exact H. Qed.

Lemma unknown_tab_falls_back_witness :
  App.ActiveComponent "settings" = App.BlockBlastGame
  /\ App.select "settings" loaded (world0 0) = (Ret tt, loaded, world0 0).
Proof.
  destruct (unknown_tab_falls_back "settings" loaded (world0 0) settings_is_no_tab)
    as (H1 & H2 & _).
  split; assumption.
Defined.

Lemma one_nav_button_active_witness :
  active_nav (App.render loaded) = ["game"].
Proof.
  apply (one_nav_button_active loaded); [cbn; auto|reflexivity].
Defined.

Lemma switching_tabs_replaces_panel_witness :
  App.reconcile (App.render loaded) (App.render (after_select "leaders" loaded))
  = [App.Unmounts App.BlockBlastGame; App.Mounts App.LeadersTab].
Proof.
  apply (switching_tabs_replaces_panel "leaders" loaded);
    [cbn; auto|cbn; auto|discriminate|reflexivity].
Defined.

Lemma overlay_hidden_after_local_fallback_witness :
  overlay_of
    (App.render
       (on_tab "game"
          (loading_done
             (state_of (App.initializeApp env_down (Some alice_host) App.initial (world0 0))))))
  = None.
Proof.
  pose proof (overlay_hidden_after_local_fallback env_down (Some alice_host) App.initial
                (world0 0) "game" env_down_rejects) as H.
  destruct (App.initializeApp env_down (Some alice_host) App.initial (world0 0))
    as [[r s] w].
  exact (proj1 H).
Defined.

(* ===================================================================== *)
(** ** The bootstrap and requests that never settle *)
(* ===================================================================== *)

(** Against a backend that answers every request, the run that can get
    stuck is the run of the first embedding. *)
Lemma async_createDemoUser_settled b s w :
  Async.answers_all b ->
  Async.createDemoUser b s w = Async.lift_run (App.createDemoUser (Async.env_of b)) s w.
Proof.
  intros Hall.
  unfold Async.createDemoUser, App.createDemoUser, Async.lift_run, Async.bind, Async.try_catch,
    Async.axios, Async.random_below, Async.lift, Async.setUser, Async.setUserStats,
    Async.console_out, Async.lift_run, Async.API,
    bind, try_catch, axios, random_below, lift, console_out.
  cbn. rewrite Hall.
  destruct (network (Async.env_of b) (requests w) _) as [data|]; cbn; [|reflexivity].
  destruct (get_prop data "id") as [i|e]; cbn; [|reflexivity].
  rewrite Hall.
  match goal with
  | |- context [network ?env ?h ?r] => destruct (network env h r) as [sd|]
  end; cbn; [|reflexivity].
  destruct (App.merged_stats data sd); reflexivity.
Qed.

Ltac demo_sim Fin :=
  match goal with
  | |- context [Async.createDemoUser ?b ?s1 ?w1] =>
      pattern (Async.createDemoUser b s1 w1), (App.createDemoUser (Async.env_of b) s1 w1);
      apply Fin; intros; reflexivity
  end.

Lemma async_initializeApp_settled b tg s w :
  Async.answers_all b ->
  Async.initializeApp b tg s w = Async.lift_run (App.initializeApp (Async.env_of b) tg) s w.
Proof.
  intros Hall.
  assert (D := fun s w => async_createDemoUser_settled b s w Hall).
  unfold Async.lift_run in D.
  unfold Async.initializeApp, App.initializeApp, Async.lift_run, Async.bind, Async.try_catch,
    Async.try_finally, Async.axios, Async.lift, Async.setUser, Async.setUserStats,
    Async.console_out, Async.host_call, Async.setTimeout, Async.lift_run, Async.API,
    bind, try_catch, try_finally, axios, lift, console_out, host_call, setTimeout, ret.
  assert (T : forall s1 w1,
             match Async.createDemoUser b s1 w1 with
             | Async.Done r s' w' =>
                 exists s2 w2, App.createDemoUser (Async.env_of b) s1 w1 = (Ret tt, s2, w2)
                               /\ r = Ret tt /\ s' = s2 /\ w' = w2
             | Async.Stuck _ _ => False
             end).
  { intros s1 w1. rewrite D.
    destruct (createDemoUser_spec (Async.env_of b) s1 w1) as (s2 & w2 & E & _).
    rewrite E. cbn. exists s2, w2. repeat split. }
  assert (Fin : forall (P : Async.run App.State unit -> (res unit * App.State * World) -> Prop) s1 w1,
             (forall s2 w2, P (Async.Done (Ret tt) s2 w2) (Ret tt, s2, w2)) ->
             P (Async.createDemoUser b s1 w1) (App.createDemoUser (Async.env_of b) s1 w1)).
  { intros P s1 w1 HP. specialize (T s1 w1).
    destruct (Async.createDemoUser b s1 w1) as [r s' w'|]; [|contradiction].
    destruct T as (s2 & w2 & E & -> & -> & ->). rewrite E. apply HP. }
  destruct tg as [t|]; cbn -[App.createDemoUser Async.createDemoUser]; [|demo_sim Fin].
  destruct (truthy (get_opt (initDataUnsafe t) "user"));
    cbn -[App.createDemoUser Async.createDemoUser]; [|demo_sim Fin].
  destruct (ready_returns t); cbn -[App.createDemoUser Async.createDemoUser]; [|demo_sim Fin].
  destruct (expand_returns t); cbn -[App.createDemoUser Async.createDemoUser]; [|demo_sim Fin].
  destruct (get_prop (initDataUnsafe t) "user") as [tu|e];
    cbn -[App.createDemoUser Async.createDemoUser]; [|demo_sim Fin].
  rewrite Hall.
  match goal with
  | |- context [network ?env ?h ?r] => destruct (network env h r) as [data|]
  end; cbn -[App.createDemoUser Async.createDemoUser]; [|demo_sim Fin].
  destruct (get_prop data "id") as [i|e];
    cbn -[App.createDemoUser Async.createDemoUser]; [|demo_sim Fin].
  rewrite Hall.
  match goal with
  | |- context [network ?env ?h ?r] => destruct (network env h r) as [sd|]
  end; cbn -[App.createDemoUser Async.createDemoUser]; [|demo_sim Fin].
  destruct (App.merged_stats data sd);
    cbn -[App.createDemoUser Async.createDemoUser]; [reflexivity|demo_sim Fin].
Qed.

(** C1, as stated.  With the host's identity present and a backend that
    never answers, the bootstrap waits for ever on its first request:
    [user] is still [null], nothing has scheduled the timer that ends the
    loading screen, and [isLoading] is still true. *)
Lemma bootstrap_stuck_when_unanswered :
  exists s w,
    Async.initializeApp silent (Some alice_host) App.initial (world0 0) = Async.Stuck s w
    /\ App.user s = VNull
    /\ App.isLoading s = true
    /\ timeouts w = []
    /\ requests w = [real_request env_down alice_host alice].
Proof. do 2 eexists. split; [reflexivity|]. repeat split. Qed.

(** C1, amended.  For every host-identity input (no host object, no
    identity in it, a host method that throws, an identity the backend
    rejects or answers with anything at all), provided every request the
    bootstrap awaits settles, [initializeApp] completes normally with a
    [user] that is neither [null] nor [undefined] and a [userStats] object;
    when every request is rejected the pair installed is the local one:
    a user with id [demo-user], name [DemoPlayer] and counters 0, and
    stats with name [DemoPlayer], no avatar, rank 0 and counters 0. *)
Theorem bootstrap_installs_user_when_settled b tg s0 w0 :
  Async.answers_all b ->
  exists s w,
    Async.initializeApp b tg s0 w0 = Async.Done (Ret tt) s w
    /\ nonnull (App.user s) /\ is_object (App.userStats s)
    /\ (all_rejected (Async.env_of b) ->
        local_user_fields (App.user s) /\ local_stats_fields (App.userStats s)).
Proof.
  intros Hall. rewrite (async_initializeApp_settled b tg s0 w0 Hall).
  destruct (bootstrap_installs_user (Async.env_of b) tg s0 w0)
    as (s & w & E & Hn & Ho & Hl).
  unfold Async.lift_run. rewrite E. exists s, w. split; [reflexivity|].
  split; [exact Hn|]. split; [exact Ho|].
  intros Hrej. destruct (Hl Hrej) as (Hu & Hs). rewrite Hu, Hs.
  split; repeat split.
Qed.

Lemma answering_answers_all env : Async.answers_all (answering env).
Proof. intros h r. reflexivity. Qed.

Lemma bootstrap_installs_user_when_settled_witness :
  exists s w,
    Async.initializeApp (answering env_down) (Some alice_host) App.initial (world0 0)
    = Async.Done (Ret tt) s w
    /\ local_user_fields (App.user s) /\ local_stats_fields (App.userStats s).
Proof.
  destruct (bootstrap_installs_user_when_settled (answering env_down) (Some alice_host)
              App.initial (world0 0) (answering_answers_all env_down))
    as (s & w & E & _ & _ & Hl).
  exists s, w. split; [exact E|]. apply Hl. exact env_down_rejects.
Defined.

(** What one run of [createDemoUser] can end in, settled or not. *)
Lemma async_createDemoUser_frame b
  (P : Async.run App.State unit -> Prop) s1 w1 :
  (forall s2 w2,
      timeouts w2 = timeouts w1 -> App.isLoading s2 = App.isLoading s1 ->
      App.activeTab s2 = App.activeTab s1 ->
      P (Async.Done (Ret tt) s2 w2)) ->
  (forall s2 w2,
      timeouts w2 = timeouts w1 -> App.isLoading s2 = App.isLoading s1 ->
      App.activeTab s2 = App.activeTab s1 -> waits_on_last_request b w2 ->
      P (Async.Stuck s2 w2)) ->
  P (Async.createDemoUser b s1 w1).
Proof.
  intros HD HS.
  unfold Async.createDemoUser, Async.lift_run, Async.bind, Async.try_catch,
    Async.axios, Async.random_below, Async.lift, Async.setUser, Async.setUserStats,
    Async.console_out, Async.lift_run, Async.API,
    bind, try_catch, axios, random_below, lift, console_out.
  cbn.
  destruct (Async.unanswered b (requests w1) _) eqn:Hu; cbn.
  { apply HS; try reflexivity. do 2 eexists. split; [reflexivity|exact Hu]. }
  destruct (network (Async.env_of b) (requests w1) _) as [data|]; cbn;
    [|apply HD; reflexivity].
  destruct (get_prop data "id") as [i|e]; cbn; [|apply HD; reflexivity].
  match goal with
  | |- context [Async.unanswered b ?h ?r] => destruct (Async.unanswered b h r) eqn:Hu2
  end; cbn.
  { apply HS; try reflexivity. do 2 eexists. split; [reflexivity|exact Hu2]. }
  match goal with
  | |- context [network ?env ?h ?r] => destruct (network env h r) as [sd|]
  end; cbn; [|apply HD; reflexivity].
  destruct (App.merged_stats data sd); apply HD; reflexivity.
Qed.

Ltac demo_timer b :=
  match goal with
  | |- context [Async.createDemoUser b ?s1 ?w1] =>
      pattern (Async.createDemoUser b s1 w1);
      apply async_createDemoUser_frame;
      cbn [timeouts App.isLoading App.activeTab];
      [ intros s2 w2 Ht Hl Ha; cbn; rewrite Ht, Hl, Ha; repeat split
      | intros s2 w2 Ht Hl Ha Hw; cbn; rewrite Ht, Hl, Ha; repeat split; exact Hw ]
  end.

(** X1. A run of [initializeApp] that completes has returned normally and
    scheduled exactly one timer, of 2000 ms, the one that takes the loading
    screen down; a run that waits on a request the backend never answers
    has scheduled none; either way [isLoading] and the selected tab are
    untouched.  When every request settles the run completes. *)
Theorem loading_timer_needs_settled_requests b tg s0 w0 :
  match Async.initializeApp b tg s0 w0 with
  | Async.Done r s w =>
      r = Ret tt
      /\ timeouts w = (timeouts w0 ++ [2000])%list
      /\ App.isLoading s = App.isLoading s0
      /\ App.activeTab s = App.activeTab s0
  | Async.Stuck s w =>
      timeouts w = timeouts w0
      /\ App.isLoading s = App.isLoading s0
      /\ App.activeTab s = App.activeTab s0
      /\ waits_on_last_request b w
  end
  /\ (Async.answers_all b ->
      exists s w, Async.initializeApp b tg s0 w0 = Async.Done (Ret tt) s w).
Proof.
  split.
  - unfold Async.initializeApp, Async.lift_run, Async.bind, Async.try_catch,
      Async.try_finally, Async.axios, Async.lift, Async.setUser, Async.setUserStats,
      Async.console_out, Async.host_call, Async.setTimeout, Async.lift_run, Async.API,
      bind, try_catch, try_finally, axios, lift, console_out, host_call, setTimeout, ret.
    destruct tg as [t|]; cbn -[Async.createDemoUser]; [|demo_timer b].
    destruct (truthy (get_opt (initDataUnsafe t) "user"));
      cbn -[Async.createDemoUser]; [|demo_timer b].
    destruct (ready_returns t); cbn -[Async.createDemoUser]; [|demo_timer b].
    destruct (expand_returns t); cbn -[Async.createDemoUser]; [|demo_timer b].
    destruct (get_prop (initDataUnsafe t) "user") as [tu|e];
      cbn -[Async.createDemoUser]; [|demo_timer b].
    destruct (Async.unanswered b (requests w0) _) eqn:Hu; cbn -[Async.createDemoUser].
    { repeat split. do 2 eexists. split; [reflexivity|exact Hu]. }
    match goal with
    | |- context [network ?env ?h ?r] => destruct (network env h r) as [data|]
    end; cbn -[Async.createDemoUser]; [|demo_timer b].
    destruct (get_prop data "id") as [i|e]; cbn -[Async.createDemoUser]; [|demo_timer b].
    match goal with
    | |- context [Async.unanswered b ?h ?r] => destruct (Async.unanswered b h r) eqn:Hu2
    end; cbn -[Async.createDemoUser].
    { repeat split. do 2 eexists. split; [reflexivity|exact Hu2]. }
    match goal with
    | |- context [network ?env ?h ?r] => destruct (network env h r) as [sd|]
    end; cbn -[Async.createDemoUser]; [|demo_timer b].
    destruct (App.merged_stats data sd); cbn -[Async.createDemoUser]; [|demo_timer b].
    repeat split.
  - intros Hall. rewrite (async_initializeApp_settled b tg s0 w0 Hall).
    destruct (initializeApp_frame (Async.env_of b) tg s0 w0) as (s & w & new & E & _).
    unfold Async.lift_run. rewrite E. eauto.
Qed.

Lemma loading_timer_needs_settled_requests_witness :
  exists s w,
    Async.initializeApp (answering env_down) None App.initial (world0 0)
    = Async.Done (Ret tt) s w.
Proof.
  exact (proj2 (loading_timer_needs_settled_requests (answering env_down) None
                  App.initial (world0 0)) (answering_answers_all env_down)).
Defined.

(* ===================================================================== *)
(** ** Timers outside [Playing]; the overlay over all values *)
(* ===================================================================== *)

(** C8, as stated.  After the game has left [Playing], and already before
    it was ever started, an interval is active on the page: the effect arms
    one on every run, whatever the phase. *)
Lemma timer_active_outside_playing :
  playing over_page = false
  /\ option_map (fun m => phase (state m)) (panel over_page) = Some Over
  /\ active 3 over_page = true
  /\ playing idle_page = false
  /\ option_map (fun m => phase (state m)) (panel idle_page) = Some Idle
  /\ active 1 idle_page = true.
Proof. vm_compute. repeat split. Qed.

(** C10, as stated.  A backend that answers user creation with an empty
    body leaves [user] the empty string after the bootstrap, with rank 7 in
    [userStats]: none of the four conditions of the claim holds on the game
    tab, and the overlay renders nothing. *)
Lemma overlay_hidden_for_empty_user :
  match App.initializeApp env_empty_body (Some alice_host) App.initial (world0 0) with
  | (_, s, _) =>
      App.user s = VStr ""
      /\ get_opt (App.userStats s) "rank" = VNum 7
      /\ PlayerRankOverlay (App.user s) (App.userStats s) "game" = None
      /\ ~ (App.user s = VNull \/ App.userStats s = VNull
            \/ get_opt (App.userStats s) "rank" = VNum 0 \/ "game" = "profile")
  end.
Proof.
  vm_compute. repeat split. intros [H|[H|[H|H]]]; discriminate.
Qed.

(** C10, amended.  The overlay renders nothing whenever [user] is falsy
    ([null], [undefined], the empty string, 0, [false]), or [userStats] is
    falsy, or [userStats.rank] is 0, or the active tab is [profile]; in
    every other state it renders the avatar, the username and the rank of
    [userStats], and that rank is not 0. *)
Theorem overlay_by_truthiness user userStats tab :
  (truthy user = false \/ truthy userStats = false
   \/ get_opt userStats "rank" = VNum 0 \/ tab = "profile"
   -> PlayerRankOverlay user userStats tab = None)
  /\ (~ (truthy user = false \/ truthy userStats = false
         \/ get_opt userStats "rank" = VNum 0 \/ tab = "profile")
      -> PlayerRankOverlay user userStats tab
         = Some {| shown_avatar := get_opt userStats "avatar";
                   shown_username := get_opt userStats "username";
                   shown_rank := get_opt userStats "rank" |}
         /\ get_opt userStats "rank" <> VNum 0).
Proof.
  split.
  - intros H. apply overlay_guard. exact H.
  - intros H.
    assert (Hrank : get_opt userStats "rank" <> VNum 0) by (intros E; apply H; auto).
    split; [|exact Hrank].
    unfold PlayerRankOverlay.
    destruct (truthy user) eqn:Hu; [|exfalso; apply H; auto].
    destruct (truthy userStats) eqn:Hs; [|exfalso; apply H; auto].
    cbn [negb].
    destruct (is_zero (get_opt userStats "rank")) eqn:Hz.
    { apply is_zero_spec in Hz. contradiction. }
    destruct (String.eqb_spec tab "profile") as [Ht|Ht]; [exfalso; apply H; auto|].
    reflexivity.
Qed.

Lemma overlay_by_truthiness_witness :
  PlayerRankOverlay (VStr "") (VObj [("username", VStr "alice"); ("rank", VNum 7)]) "game"
  = None
  /\ PlayerRankOverlay (VObj [("id", VStr "u1")])
       (VObj [("username", VStr "alice"); ("rank", VNum 7)]) "game"
     = Some {| shown_avatar := VUndefined; shown_username := VStr "alice";
               shown_rank := VNum 7 |}.
Proof.
  split.
  - apply (proj1 (overlay_by_truthiness (VStr "")
                    (VObj [("username", VStr "alice"); ("rank", VNum 7)]) "game")).
    left. reflexivity.
  - apply (proj2 (overlay_by_truthiness (VObj [("id", VStr "u1")])
                    (VObj [("username", VStr "alice"); ("rank", VNum 7)]) "game")).
    intros [H|[H|[H|H]]]; discriminate.
Defined.
